(** * ICGEM .gdf grid reader: a shallow embedding of [load_icgem_gdf]

    Source: [src/data/icgem.py].  The function reads a text file made of a
    header (key/value lines, one blank line followed by the attribute-name
    line, terminated by [end_of_head]) and a numeric body, packages the
    columns in a dictionary and then runs its sanity checks.

    Python exceptions are modelled by the [result] monad, the dictionary by
    a [gmap] with string keys, the file by its text as the text layer hands
    it over (ASCII, newlines already translated to a single line feed).  The numeric library
    (Python's [float], numpy's float64 arithmetic, [min]/[max] and
    [allclose]) is an interface, [Numeric]; the parser itself is concrete. *)

From Stdlib Require Import ZArith Ascii String List Lia Bool.
From stdpp Require Import base option list strings gmap.

Local Open Scope string_scope.
Local Open Scope Z_scope.
Local Open Scope list_scope.

(** A computation either returns or raises. *)
Inductive result (E A : Type) : Type :=
| Return (a : A)
| Raise (e : E).

Arguments Return {E A} a.
Arguments Raise {E A} e.

#[global] Instance result_ret {E} : MRet (result E) := fun A a => Return a.

#[global] Instance result_bind {E} : MBind (result E) := fun A B k m =>
  match m with
  | Return a => k a
  | Raise e => Raise e
  end.

Definition from_option {E A} (e : E) (o : option A) : result E A :=
  match o with
  | Some a => Return a
  | None => Raise e
  end.

Definition returns {E A} (m : result E A) : bool :=
  match m with
  | Return _ => true
  | Raise _ => false
  end.

(** ** Strings: [str.strip], [str.split], slicing, file lines

    The text is ASCII.  Python's whitespace in that range is the characters
    9 to 13, 28 to 31 and 32. *)

Definition is_space (c : ascii) : bool :=
  let n := nat_of_ascii c in
  ((9 <=? n) && (n <=? 13) || (28 <=? n) && (n <=? 32))%nat.

Fixpoint lstrip (s : string) : string :=
  match s with
  | EmptyString => EmptyString
  | String c r => if is_space c then lstrip r else s
  end.

(** [rstrip] drops the trailing run of whitespace: a character is kept when
    it is not a space or when something is kept after it. *)
Fixpoint rstrip (s : string) : string :=
  match s with
  | EmptyString => EmptyString
  | String c r =>
      match rstrip r with
      | EmptyString => if is_space c then EmptyString else String c EmptyString
      | r' => String c r'
      end
  end.

Definition strip (s : string) : string := rstrip (lstrip s).

(** [s.split()]: the maximal runs of non-whitespace characters.  [cur] is the
    run being read, in reverse. *)
Definition flush (cur : list ascii) (acc : list string) : list string :=
  match cur with
  | [] => acc
  | _ => string_of_list_ascii (rev cur) :: acc
  end.

Fixpoint split_aux (s : string) (cur : list ascii) : list string :=
  match s with
  | EmptyString => flush cur []
  | String c r =>
      if is_space c then flush cur (split_aux r [])
      else split_aux r (c :: cur)
  end.

Definition split (s : string) : list string := split_aux s [].

(** The lines a text file yields when iterated: each keeps its newline, the
    last one may lack it. *)
Definition newline : ascii := ascii_of_nat 10.

Fixpoint readlines_aux (s : string) (cur : list ascii) : list string :=
  match s with
  | EmptyString => flush cur []
  | String c r =>
      if Ascii.eqb c newline
      then string_of_list_ascii (rev (c :: cur)) :: readlines_aux r []
      else readlines_aux r (c :: cur)
  end.

Definition readlines (text : string) : list string := readlines_aux text [].

(** [''.join(lines)] *)
Definition join (lines : list string) : string :=
  fold_right String.append EmptyString lines.

(** [line.strip()[:11] == 'end_of_head'] *)
Definition is_end_of_head (line : string) : bool :=
  String.eqb (substring 0 11 (strip line)) "end_of_head".

(** [not line.strip()] *)
Definition is_blank (line : string) : bool :=
  String.eqb (strip line) EmptyString.

(** ** [int(token)]: an optional sign, then decimal digits, single
    underscores allowed between digits. *)

Definition digit_of (c : ascii) : option Z :=
  let n := nat_of_ascii c in
  if ((48 <=? n) && (n <=? 57))%nat then Some (Z.of_nat n - 48) else None.

Fixpoint digits_val (acc : Z) (after_digit : bool) (s : string) : option Z :=
  match s with
  | EmptyString => if after_digit then Some acc else None
  | String c r =>
      match digit_of c with
      | Some d => digits_val (10 * acc + d) true r
      | None =>
          if Ascii.eqb c "_" && after_digit then
            match r with
            | EmptyString => None
            | _ => digits_val acc false r
            end
          else None
      end
  end.

Definition parse_int (s : string) : option Z :=
  match s with
  | String "+" r => digits_val 0 false r
  | String "-" r => Z.opp <$> digits_val 0 false r
  | _ => digits_val 0 false s
  end.

(** ** The numeric library

    What the reader takes from Python's [float] and from numpy, over the
    type [num] of float64 values: [float(token)] ([None] when it raises ValueError), the
    constant 1.0 of [np.ones], the product, the binary minimum and maximum
    that [ndarray.min] and [ndarray.max] fold over an array, and the
    element test of [np.allclose] (|a - b| <= 1e-8 + 1e-5 * |b|). *)
Class Numeric (num : Type) := {
  parse_float : string -> option num;
  one : num;
  mul : num -> num -> num;
  fmin : num -> num -> num;
  fmax : num -> num -> num;
  isclose : num -> num -> bool
}.

(** How the free name [usecols] of line 84 resolves when the function is
    called: the module of the source binds it nowhere ([Unbound]); a module
    global of that name would hold [None] or a list of column indices. *)
Inductive binding : Type :=
| Unbound
| Bound (v : option (list Z)).

Section Reader.

Context {num : Type} {N : Numeric num}.

(** ** Values and exceptions *)

Definition shape_t : Type := option Z * option Z.
Definition area_t : Type := option num * option num * option num * option num.

(** What the dictionary [data] holds: the list [shape], the list [area], the
    string [metadata], or a one-dimensional array. *)
Inductive value : Type :=
| VShape (s : shape_t)
| VArea (a : area_t)
| VStr (s : string)
| VArray (a : list num).

(** The messages of the assertions of the sanity checks (lines 78 to 95),
    with the values their format strings are filled with. *)
Inductive message : Type :=
| CouldntReadShape                               (* "Couldn't read shape of grid." *)
| CouldntReadSize                                (* "Couldn't read size of grid." *)
| ShapeSizeMismatch (shape : Z * Z) (size : Z)   (* "Grid shape '{}' and size '{}' mismatch." *)
| CouldntReadColumnNames                         (* "Couldn't read column names." *)
| AttributesColumnsMismatch (nattr ncols : nat)  (* "Number of attributes ({}) and data columns ({}) mismatch" *)
| CouldntReadArea                                (* "Couldn't read the grid area." *)
| AreaMismatch (header : value) (calculated : num * num * num * num).
                                                 (* "Grid area in header ({}) and calculated ({}) mismatch." *)

Inductive exn : Type :=
| IndexError                      (* parts[1], attributes[i] *)
| ValueError                      (* int(), float(), loadtxt, reshape, ones, min of an empty array *)
| TypeError                       (* zip(None, ...), reshape([None, ...]), ones(None) *)
| KeyError (key : string)         (* data['latitude'] *)
| NameError (name : string)       (* a name bound nowhere *)
| AssertionError (msg : message).

Abbreviation py := (result exn).

(** ** The header loop (lines 27 to 61) *)

Record header : Type := mkHeader {
  metadata : list string;
  shape : shape_t;
  size : option Z;
  height : option num;
  attributes : option (list string);
  attr_line : bool;
  area : area_t
}.

(** Lines 27 to 33. *)
Definition init : header :=
  {| metadata := []; shape := (None, None); size := None; height := None;
     attributes := None; attr_line := false;
     area := (None, None, None, None) |}.

(** [parts[1]], then [int] or [float] of it. *)
Definition int_arg (parts : list string) : py Z :=
  tok ← from_option IndexError (parts !! 1%nat);
  from_option ValueError (parse_int tok).

Definition float_arg (parts : list string) : py num :=
  tok ← from_option IndexError (parts !! 1%nat);
  from_option ValueError (parse_float tok).

Definition set_shape0 (h : header) (n : Z) : header :=
  {| metadata := metadata h; shape := (Some n, snd (shape h)); size := size h;
     height := height h; attributes := attributes h; attr_line := attr_line h;
     area := area h |}.

Definition set_shape1 (h : header) (n : Z) : header :=
  {| metadata := metadata h; shape := (fst (shape h), Some n); size := size h;
     height := height h; attributes := attributes h; attr_line := attr_line h;
     area := area h |}.

Definition set_size (h : header) (n : Z) : header :=
  {| metadata := metadata h; shape := shape h; size := Some n;
     height := height h; attributes := attributes h; attr_line := attr_line h;
     area := area h |}.

Definition set_height (h : header) (x : num) : header :=
  {| metadata := metadata h; shape := shape h; size := size h;
     height := Some x; attributes := attributes h; attr_line := attr_line h;
     area := area h |}.

Definition set_area (h : header) (a : area_t) : header :=
  {| metadata := metadata h; shape := shape h; size := size h;
     height := height h; attributes := attributes h; attr_line := attr_line h;
     area := a |}.

Definition set_attributes (h : header) (names : list string) : header :=
  {| metadata := metadata h; shape := shape h; size := size h;
     height := height h; attributes := Some names; attr_line := false;
     area := area h |}.

Definition set_attr_line (h : header) : header :=
  {| metadata := metadata h; shape := shape h; size := size h;
     height := height h; attributes := attributes h; attr_line := true;
     area := area h |}.

Definition append_metadata (h : header) (line : string) : header :=
  {| metadata := metadata h ++ [line]; shape := shape h; size := size h;
     height := height h; attributes := attributes h; attr_line := attr_line h;
     area := area h |}.

(** Lines 42 to 58: a key/value line.  [parts[1]] is read only under a
    recognised key; any other key is passed over. *)
Definition key_value (h : header) (parts : list string) : py header :=
  match parts with
  | [] => Raise IndexError
  | key :: _ =>
      if String.eqb key "height_over_ell" then
        x ← float_arg parts; mret (set_height h x)
      else if String.eqb key "latitude_parallels" then
        n ← int_arg parts; mret (set_shape0 h n)
      else if String.eqb key "longitude_parallels" then
        n ← int_arg parts; mret (set_shape1 h n)
      else if String.eqb key "number_of_gridpoints" then
        n ← int_arg parts; mret (set_size h n)
      else if String.eqb key "latlimit_south" then
        x ← float_arg parts;
        let '(_, n, w, e) := area h in mret (set_area h (Some x, n, w, e))
      else if String.eqb key "latlimit_north" then
        x ← float_arg parts;
        let '(s, _, w, e) := area h in mret (set_area h (s, Some x, w, e))
      else if String.eqb key "longlimit_west" then
        x ← float_arg parts;
        let '(s, n, _, e) := area h in mret (set_area h (s, n, Some x, e))
      else if String.eqb key "longlimit_east" then
        x ← float_arg parts;
        let '(s, n, w, _) := area h in mret (set_area h (s, n, w, Some x))
      else mret h
  end.

(** Lines 37 to 61: the body of the loop on a line that did not end it. *)
Definition header_line (h : header) (line : string) : py header :=
  let h := append_metadata h line in
  if is_blank line then mret (set_attr_line h)
  else if negb (attr_line h) then key_value h (split (strip line))
  else mret (set_attributes h (split (strip line))).

(** Lines 34 to 61: the loop leaves at the first [end_of_head] line, before
    anything is done with it, or when the file is exhausted.  It returns the
    header and the lines left in the file. *)
Fixpoint read_header (h : header) (lines : list string) : py (header * list string) :=
  match lines with
  | [] => mret (h, [])
  | line :: rest =>
      if is_end_of_head line then mret (h, rest)
      else h' ← header_line h line; read_header h' rest
  end.

(** ** [np.loadtxt(gdf_file, ndmin=2, unpack=True)] (line 64)

    Each remaining line is cut at the first [#], split on whitespace and
    converted; lines left without a token are skipped; all rows have the
    number of columns of the first one.  [unpack] transposes: the result has
    one row per column of the file.  A body without data gives an array of
    shape (1, 0). *)

Fixpoint strip_comment (s : string) : string :=
  match s with
  | EmptyString => EmptyString
  | String c r => if Ascii.eqb c "#" then EmptyString else String c (strip_comment r)
  end.

Fixpoint parse_row (toks : list string) : py (list num) :=
  match toks with
  | [] => mret []
  | tok :: rest =>
      x ← from_option ValueError (parse_float tok);
      xs ← parse_row rest;
      mret (x :: xs)
  end.

Fixpoint loadtxt_rows (ncols : option nat) (lines : list string) : py (list (list num)) :=
  match lines with
  | [] => mret []
  | line :: rest =>
      match split (strip_comment line) with
      | [] => loadtxt_rows ncols rest
      | toks =>
          row ← parse_row toks;
          if match ncols with
             | None => true
             | Some n => Nat.eqb (length row) n
             end
          then rows ← loadtxt_rows (Some (length row)) rest; mret (row :: rows)
          else Raise ValueError
      end
  end.

Definition transpose (rows : list (list num)) : list (list num) :=
  match rows with
  | [] => [[]]
  | first :: _ => (fun j => omap (fun row : list num => row !! j) rows) <$> seq 0 (length first)
  end.

Definition loadtxt (lines : list string) : py (list (list num)) :=
  rows ← loadtxt_rows None lines;
  mret (transpose rows).

(** ** Packaging (lines 68 to 75) *)

(** The range of numpy's index type, a signed 64-bit integer. *)
Definition fits_index (n : Z) : bool := (- 2 ^ 63 <=? n) && (n <? 2 ^ 63).

(** The largest number of elements of an array of 8-byte floats: the size
    in bytes has to fit the index type. *)
Definition max_elements : Z := 2 ^ 60 - 1.

(** The size check made when an array of shape [(a, b)] is built: the
    product of the dimensions, the zero ones left out, is at most
    [max_elements]. *)
Definition fits_array (a b : Z) : bool :=
  (if a =? 0 then 1 else a) * (if b =? 0 then 1 else b) <=? max_elements.

(** The dimensions that [reshape] gives an array of [n] elements: one
    negative dimension is inferred from the other; otherwise the product
    must be [n]. *)
Definition resolve_dims (a b n : Z) : option (Z * Z) :=
  if a <? 0 then
    if b <? 0 then None
    else if (b =? 0) || negb (n mod b =? 0) then None
    else Some (n / b, b)
  else if b <? 0 then
    if (a =? 0) || negb (n mod a =? 0) then None
    else Some (a, n / a)
  else if a * b =? n then Some (a, b)
  else None.

(** [value.reshape(shape)] on a one-dimensional array of [n] elements.  The
    entries of the shape are converted to the index type in turn: a [None]
    is a TypeError, an integer out of range a ValueError.  The dimensions
    are then resolved against [n], and the size of the result is checked;
    a failure of either is a ValueError. *)
Definition reshape_dims (a b n : Z) : option (Z * Z) :=
  if negb (fits_index a && fits_index b) then None
  else match resolve_dims a b n with
       | Some (a', b') => if fits_array a' b' then Some (a', b') else None
       | None => None
       end.

(** The rows of an [a] by [b] array over the elements of [v]. *)
Definition rows_of (a b : nat) (v : list num) : list (list num) :=
  (fun i => take b (drop (i * b) v)) <$> seq 0 a.

Definition reshape (sh : shape_t) (v : list num) : py (list (list num)) :=
  match sh with
  | (Some a, Some b) =>
      '(a', b') ← from_option ValueError (reshape_dims a b (Z.of_nat (length v)));
      mret (rows_of (Z.to_nat a') (Z.to_nat b') v)
  | (Some a, None) => if fits_index a then Raise TypeError else Raise ValueError
  | (None, _) => Raise TypeError
  end.

(** [value.reshape(shape)[::-1].ravel()] *)
Definition flip_latitude (sh : shape_t) (v : list num) : py (list num) :=
  rows ← reshape sh v;
  mret (concat (reverse rows)).

(** Lines 69 to 73, over the pairs of [zip(attributes, rawdata)]. *)
Fixpoint store_columns (sh : shape_t) (cols : list (string * list num))
    (data : gmap string value) : py (gmap string value) :=
  match cols with
  | [] => mret data
  | (attr, v) :: rest =>
      col ← flip_latitude sh v;
      store_columns sh rest (<[attr := VArray col]> data)
  end.

(** [height*np.ones(size)]: [np.ones(None)] is a TypeError (releases of
    numpy that took [None] for the empty shape gave a zero-dimensional array
    instead); a negative size is a ValueError, and so is a size beyond
    [max_elements].  Below that bound the allocation is taken to succeed. *)
Definition height_column (x : num) (sz : option Z) : py value :=
  match sz with
  | None => Raise TypeError
  | Some n =>
      if (n <? 0) || (max_elements <? n) then Raise ValueError
      else mret (VArray (mul x <$> replicate (Z.to_nat n) one))
  end.

(** Line 68. *)
Definition header_entries (h : header) : gmap string value :=
  <["metadata" := VStr (join (metadata h))]>
    (<["area" := VArea (area h)]>
      (<["shape" := VShape (shape h)]> ∅)).

Definition package (h : header) (rawdata : list (list num)) : py (gmap string value) :=
  attrs ← from_option TypeError (attributes h);
  data ← store_columns (shape h) (zip attrs rawdata) (header_entries h);
  match height h with
  | None => mret data
  | Some x =>
      col ← height_column x (size h);
      mret (<["h_over_ellipsoid" := col]> data)
  end.

(** ** Sanity checks (lines 78 to 95) *)

(** [attributes[i]] with Python's negative indices. *)
Definition py_index (l : list string) (i : Z) : py string :=
  let n := Z.of_nat (length l) in
  if (0 <=? i) && (i <? n) then from_option IndexError (l !! Z.to_nat i)
  else if (i <? 0) && (0 <=? i + n) then from_option IndexError (l !! Z.to_nat (i + n))
  else Raise IndexError.

Fixpoint select (l : list string) (idx : list Z) : py (list string) :=
  match idx with
  | [] => mret []
  | i :: rest =>
      x ← py_index l i;
      xs ← select l rest;
      mret (x :: xs)
  end.

(** Lines 84 and 85: the name [usecols] is looked up first. *)
Definition apply_usecols (usecols : binding) (attrs : list string) : py (list string) :=
  match usecols with
  | Unbound => Raise (NameError "usecols")
  | Bound None => mret attrs
  | Bound (Some idx) => select attrs idx
  end.

(** [a.min()] and [a.max()]: an empty array is a ValueError. *)
Definition array_min (a : list num) : py num :=
  match a with
  | [] => Raise ValueError
  | x :: r => mret (foldl fmin x r)
  end.

Definition array_max (a : list num) : py num :=
  match a with
  | [] => Raise ValueError
  | x :: r => mret (foldl fmax x r)
  end.

(** [data[key]] where an array is expected. *)
Definition get_array (data : gmap string value) (key : string) : py (list num) :=
  match data !! key with
  | Some (VArray a) => mret a
  | Some _ => Raise TypeError
  | None => Raise (KeyError key)
  end.

Definition allclose4 (c : num * num * num * num) (s n w e : num) : bool :=
  let '(c0, c1, c2, c3) := c in
  isclose c0 s && isclose c1 n && isclose c2 w && isclose c3 e.

(** [np.allclose(area, data['area'])]: against the four bounds of the header,
    or, when a column was stored under ['area'], against that array, which
    broadcasts only if it has four elements or one. *)
Definition allclose (c : num * num * num * num) (declared : option value) : py bool :=
  match declared with
  | Some (VArea (Some s, Some n, Some w, Some e)) => mret (allclose4 c s n w e)
  | Some (VArray [s; n; w; e]) => mret (allclose4 c s n w e)
  | Some (VArray [x]) => mret (allclose4 c x x x x)
  | Some (VArray _) => Raise ValueError
  | Some _ => Raise TypeError
  | None => Raise (KeyError "area")
  end.

Definition mem (x : string) (l : list string) : bool :=
  existsb (String.eqb x) l.

Definition assert (b : bool) (msg : message) : py unit :=
  if b then mret tt else Raise (AssertionError msg).

(** Lines 90 to 95. *)
Definition check_area (attrs : list string) (data : gmap string value) : py unit :=
  if mem "latitude" attrs && mem "longitude" attrs then
    lat ← get_array data "latitude";
    lon ← get_array data "longitude";
    c0 ← array_min lat;
    c1 ← array_max lat;
    c2 ← array_min lon;
    c3 ← array_max lon;
    ok ← allclose (c0, c1, c2, c3) (data !! "area");
    match data !! "area" with
    | Some declared => assert ok (AreaMismatch declared (c0, c1, c2, c3))
    | None => Raise (KeyError "area")
    end
  else mret tt.

Definition all_known (a : area_t) : bool :=
  match a with
  | (Some _, Some _, Some _, Some _) => true
  | _ => false
  end.

Definition sanity_checks (usecols : binding) (h : header)
    (rawdata : list (list num)) (data : gmap string value) : py (gmap string value) :=
  match shape h with
  | (Some n0, Some n1) =>
      match size h with
      | Some sz =>
          _ ← assert (n0 * n1 =? sz) (ShapeSizeMismatch (n0, n1) sz);
          attrs ← from_option (AssertionError CouldntReadColumnNames) (attributes h);
          attrs ← apply_usecols usecols attrs;
          _ ← assert (Nat.eqb (length attrs) (length rawdata))
                (AttributesColumnsMismatch (length attrs) (length rawdata));
          _ ← assert (all_known (area h)) CouldntReadArea;
          _ ← check_area attrs data;
          mret data
      | None => Raise (AssertionError CouldntReadSize)
      end
  | _ => Raise (AssertionError CouldntReadShape)
  end.

(** ** The reader *)

Definition load_lines (usecols : binding) (lines : list string) : py (gmap string value) :=
  '(h, rest) ← read_header init lines;
  rawdata ← loadtxt rest;
  data ← package h rawdata;
  sanity_checks usecols h rawdata data.

Definition load_icgem_gdf (usecols : binding) (text : string) : py (gmap string value) :=
  load_lines usecols (readlines text).

End Reader.

Arguments value : clear implicits.
Arguments message : clear implicits.
Arguments exn : clear implicits.
Arguments header : clear implicits.

(** ** Functions used to state the properties *)

(** The lines the loop consumes, and the lines it leaves. *)
Fixpoint header_lines (lines : list string) : list string :=
  match lines with
  | [] => []
  | line :: rest => if is_end_of_head line then [] else line :: header_lines rest
  end.

Fixpoint body_lines (lines : list string) : list string :=
  match lines with
  | [] => []
  | line :: rest => if is_end_of_head line then rest else body_lines rest
  end.

(** The loop body folded over lines none of which ends the header. *)
Fixpoint run_lines {num : Type} {N : Numeric num} (h : header num)
    (lines : list string) : result (exn num) (header num) :=
  match lines with
  | [] => mret h
  | line :: rest => h' ← header_line h line; run_lines h' rest
  end.

(** The entry of a returned dictionary under a key. *)
Definition entry {num : Type} (r : result (exn num) (gmap string (value num)))
    (key : string) : option (value num) :=
  match r with
  | Return d => d !! key
  | Raise _ => None
  end.

(** The line is a key/value line of that key: its first token is [key]. *)
Definition declares (key line : string) : bool :=
  match split (strip line) with
  | first :: _ => String.eqb first key
  | [] => false
  end.

(** Row [k] of a flat array seen as rows of [b] elements. *)
Definition grid_row {A} (b k : nat) (v : list A) : list A :=
  take b (drop (k * b) v).

(** The names that [zip(attributes, rawdata)] pairs with a row. *)
Definition stored_names {A} (attrs : list string) (rawdata : list A) : list string :=
  take (length rawdata) attrs.

(** ** An instance to run the reader on

    Grids whose values are integers: on integer literals of moderate size
    float64 arithmetic is exact, so the values are integers, [float] is
    [int], and the tolerance test of [allclose] reads
    1e8 * |a - b| <= 1 + 1e3 * |b|. *)
#[export] Instance IntNum : Numeric Z := {|
  parse_float := parse_int;
  one := 1;
  mul := Z.mul;
  fmin := Z.min;
  fmax := Z.max;
  isclose := fun a b => 100000000 * Z.abs (a - b) <=? 1 + 1000 * Z.abs b
|}.

(** A text from its lines, a newline after each. *)
Definition text_of (lines : list string) : string :=
  join ((fun l => String.append l (String newline EmptyString)) <$> lines).

Definition minimal_header : list string :=
  [ "latitude_parallels 2"; "longitude_parallels 2"; "number_of_gridpoints 4";
    "latlimit_south 0"; "latlimit_north 1"; "longlimit_west 0"; "longlimit_east 1";
    ""; "latitude longitude gravity"; "end_of_head" ].

(** The body with one grid point per line, north to south. *)
Definition minimal_points : list string :=
  [ "1 0 10"; "1 1 20"; "0 0 30"; "0 1 40" ].

(** The body with one attribute per line. *)
Definition minimal_rows : list string :=
  [ "1 1 0 0"; "0 1 0 1"; "10 20 30 40" ].

Definition line (s : string) : string := String.append s (String newline EmptyString).

Definition two_line_header : list string :=
  [ line "latitude_parallels 2"; line "end_of_head"; line "1 2" ].

Definition two_attribute_lines : list string :=
  [ line ""; line "a b"; line "latitude_parallels 2"; line "  "; line "";
    line "c d"; line "[deg] [deg]"; line "end_of_head"; line "1 2" ].

Definition header_of {num : Type} (r : result (exn num) (header num * list string)) :
    header num :=
  match r with
  | Return (h, _) => h
  | Raise _ => init
  end.

Definition two_line_parsed : header Z :=
  Eval vm_compute in header_of (read_header init two_line_header).

Definition two_attribute_header : header Z :=
  Eval vm_compute in header_of (read_header init two_attribute_lines).

(** The minimal header with another key/value line in place of line [i]. *)
Definition with_line (i : nat) (l : string) (lines : list string) : list string :=
  <[i := l]> lines.

(** A grid of 2 by 3 points, six points declared and given, whose header
    says [longitude_parallels 2]. *)
Definition six_points : list string :=
  with_line 6 "longlimit_east 2"
    (with_line 2 "number_of_gridpoints 6" minimal_header)
  ++ [ "1 0 10"; "1 1 20"; "1 2 30"; "0 0 40"; "0 1 50"; "0 2 60" ].

(** Shape 2 by 2 and four points given, but five declared. *)
Definition five_declared : list string :=
  with_line 2 "number_of_gridpoints 5" minimal_header ++ minimal_points.

(** The southern bound of the header moved from 0 to 1. *)
Definition south_perturbed : list string :=
  with_line 3 "latlimit_south 1" minimal_header ++ minimal_points.

(** The line of [number_of_gridpoints] left out. *)
Definition size_omitted : list string :=
  delete 2%nat minimal_header ++ minimal_points.

(** Three attribute names, two values per grid point. *)
Definition two_columns : list string :=
  minimal_header ++ [ "1 0"; "1 1"; "0 0"; "0 1" ].

(** The minimal file with a height over the ellipsoid declared. *)
Definition with_height : list string :=
  "height_over_ell 7 m" :: minimal_header ++ minimal_points.

(** The minimal file with a height declared and its third attribute named
    [h_over_ellipsoid]. *)
Definition height_attribute : list string :=
  "height_over_ell 7 m"
    :: with_line 8 "latitude longitude h_over_ellipsoid" minimal_header
    ++ minimal_points.

(** The minimal file with its first attribute named as its third. *)
Definition gravity_twice : list string :=
  with_line 8 "gravity longitude gravity" minimal_header ++ minimal_points.

(** [size_omitted] with a height declared, and [six_points] with its line of
    [number_of_gridpoints] left out. *)
Definition size_omitted_with_height : list string :=
  "height_over_ell 7 m" :: size_omitted.

Definition size_omitted_six_points : list string :=
  delete 2%nat six_points.

(** The minimal file with a height and 10^30 grid points declared. *)
Definition oversized_with_height : list string :=
  "height_over_ell 7 m"
    :: with_line 2 "number_of_gridpoints 1000000000000000000000000000000"
         minimal_header
    ++ minimal_points.

(** The minimal file with its third attribute named [shape]. *)
Definition shape_attribute : list string :=
  with_line 8 "latitude longitude shape" minimal_header ++ minimal_points.

(** The exceptions of Python's builtins and of numpy. *)
Definition builtin {num : Type} (e : exn num) : bool :=
  match e with
  | IndexError | ValueError | TypeError => true
  | _ => false
  end.

(** The exceptions that lines 24 to 85 can raise. *)
Definition raised_by_line_85 {num : Type} (e : exn num) : bool :=
  match e with
  | IndexError | ValueError | TypeError | NameError _ => true
  | AssertionError CouldntReadShape | AssertionError CouldntReadSize => true
  | AssertionError (ShapeSizeMismatch _ _) => true
  | AssertionError CouldntReadColumnNames => true
  | _ => false
  end.

(** ** The keys of the header *)

(** The keys that lines 43 to 58 act on. *)
Definition recognised_keys : list string :=
  [ "height_over_ell"; "latitude_parallels"; "longitude_parallels";
    "number_of_gridpoints"; "latlimit_south"; "latlimit_north";
    "longlimit_west"; "longlimit_east" ].

(** The keys whose value the sanity checks ask for (lines 78, 79 and 89). *)
Definition required_keys : list string :=
  [ "latitude_parallels"; "longitude_parallels"; "number_of_gridpoints";
    "latlimit_south"; "latlimit_north"; "longlimit_west"; "longlimit_east" ].

Definition some {A} (o : option A) : bool :=
  match o with
  | Some _ => true
  | None => false
  end.

(** Whether the header holds the value that the key sets. *)
Definition known {num : Type} (key : string) (h : header num) : bool :=
  let '(s, n, w, e) := area h in
  if String.eqb key "height_over_ell" then some (height h)
  else if String.eqb key "latitude_parallels" then some (fst (shape h))
  else if String.eqb key "longitude_parallels" then some (snd (shape h))
  else if String.eqb key "number_of_gridpoints" then some (size h)
  else if String.eqb key "latlimit_south" then some s
  else if String.eqb key "latlimit_north" then some n
  else if String.eqb key "longlimit_west" then some w
  else if String.eqb key "longlimit_east" then some e
  else false.

(** The keys read with [int] and the keys read with [float]. *)
Definition int_keys : list string :=
  [ "latitude_parallels"; "longitude_parallels"; "number_of_gridpoints" ].

Definition float_keys : list string :=
  [ "height_over_ell"; "latlimit_south"; "latlimit_north";
    "longlimit_west"; "longlimit_east" ].

(** The minimal file without its [latlimit_south] line. *)
Definition south_omitted : list string :=
  delete 3%nat minimal_header ++ minimal_points.

(** The minimal file with a key that lost its value, and with a count that
    is not an integer literal. *)
Definition value_omitted : list string :=
  with_line 1 "longitude_parallels" minimal_header ++ minimal_points.

Definition count_with_point : list string :=
  with_line 1 "longitude_parallels 2.0" minimal_header ++ minimal_points.

(** The exceptions that the check of lines 90 to 95 can raise. *)
Definition raised_by_area_check {num : Type} (e : exn num) : bool :=
  match e with
  | ValueError | TypeError | KeyError _ => true
  | AssertionError (AreaMismatch _ _) => true
  | _ => false
  end.

(** The minimal file without the blank line and the attribute line, and
    without its [latitude_parallels] line. *)
Definition attributes_omitted : list string :=
  take 7 minimal_header ++ ["end_of_head"] ++ minimal_points.

Definition latitude_parallels_omitted : list string :=
  delete 0%nat minimal_header ++ minimal_points.

(** The minimal file without its [longitude_parallels] line, and the same
    with a first dimension of 10^19, beyond the index range. *)
Definition longitude_parallels_omitted : list string :=
  delete 1%nat minimal_header ++ minimal_points.

Definition longitude_parallels_omitted_wide : list string :=
  with_line 0 "latitude_parallels 10000000000000000000"
    (delete 1%nat minimal_header) ++ minimal_points.

(** What the reshape of line 73 raises on a shape with a dimension left
    [None]: the entries are converted in turn, so that a first dimension
    out of the index range is reported before a missing second one. *)
Definition missing_dimension_error {num : Type} (sh : shape_t) : exn num :=
  match sh with
  | (Some a, None) => if fits_index a then TypeError else ValueError
  | _ => TypeError
  end.

(** ** The display helpers ([src/helpers.py], [src/notebooks/helpers.py])

    Of these files the parts that compute are embedded: [minmax], and the
    choice of the slider options in [ProfileSelector.interact].  The data
    set is seen as a dictionary from field names to the values of the
    field. *)

Section Helpers.

Context {num : Type} {N : Numeric num}.

(** Python's [<] on two values. *)
Variable ltb : num -> num -> bool.

(** [data[field].min() for field in fields], consumed from left to right:
    a missing field is a KeyError, an empty array a ValueError. *)
Fixpoint field_values (reduce : list num -> result (exn num) num)
    (data : gmap string (list num)) (fields : list string) :
    result (exn num) (list num) :=
  match fields with
  | [] => mret []
  | field :: more =>
      a ← from_option (KeyError field) (data !! field);
      x ← reduce a;
      xs ← field_values reduce data more;
      mret (x :: xs)
  end.

(** The builtins [min] and [max] over the items of a generator: the first
    item, replaced by each later item that is smaller (greater); no item is
    a ValueError. *)
Definition py_min (items : list num) : result (exn num) num :=
  match items with
  | [] => Raise ValueError
  | x :: more => mret (foldl (fun best item => if ltb item best then item else best) x more)
  end.

Definition py_max (items : list num) : result (exn num) num :=
  match items with
  | [] => Raise ValueError
  | x :: more => mret (foldl (fun best item => if ltb best item then item else best) x more)
  end.

(** [minmax] (lines 10 to 17 of [src/helpers.py]). *)
Definition minmax (data : gmap string (list num)) (fields : list string) :
    result (exn num) (gmap string num) :=
  mins ← field_values array_min data fields;
  vmin ← py_min mins;
  maxs ← field_values array_max data fields;
  vmax ← py_max maxs;
  mret (<["vmax" := vmax]> (<["vmin" := vmin]> ∅)).

End Helpers.

(** [l[::k]] for a positive [k]: the elements at the indices 0, k, 2k, ... *)
Definition stride {A} (k : nat) (l : list A) : list A :=
  omap (fun j => l !! (j * k)%nat) (seq 0 ((length l + k - 1) / k)).

(** [l[::k]]: a zero step is a ValueError, a negative one walks from the
    last element down. *)
Definition slice_step {num A : Type} (l : list A) (k : Z) : result (exn num) (list A) :=
  if k =? 0 then Raise ValueError
  else if 0 <? k then mret (stride (Z.to_nat k) l)
  else mret (stride (Z.to_nat (- k)) (reverse l)).

(** Lines 211 and 212 (and 233 to 235) of [src/notebooks/helpers.py]:
    [options = values.tolist()[::self.profile_interval]] and
    [mid = options[len(options)//2]]. *)
Definition slider_options {num : Type} (values : list num) (profile_interval : Z) :
    result (exn num) (list num * num) :=
  options ← slice_step values profile_interval;
  mid ← from_option IndexError (options !! (length options / 2)%nat);
  mret (options, mid).

(** * Properties *)

(** ** The monad *)

Lemma bind_Return {E A B} (m : result E A) (k : A -> result E B) (b : B) :
  m ≫= k = Return b -> exists a, m = Return a /\ k a = Return b.
Proof. destruct m as [a|e]; simpl; [eauto | discriminate]. Qed.

Lemma bind_of_Return {E A B} (m : result E A) (k : A -> result E B) (a : A) :
  m = Return a -> m ≫= k = k a.
Proof. intros ->. reflexivity. Qed.

Lemma from_option_Return {E A} (e : E) (o : option A) (a : A) :
  from_option e o = Return a -> o = Some a.
Proof. destruct o; simpl; congruence. Qed.

(** Splits a hypothesis [m ≫= k = Return b] into its two runs. *)
Ltac inv_bind H :=
  let a := fresh "a" in
  let Ha := fresh "Hrun" in
  apply bind_Return in H; destruct H as (a & Ha & H).

(** ** The header loop *)

Lemma header_lines_not_end lines :
  Forall (fun l => is_end_of_head l = false) (header_lines lines).
Proof.
  induction lines as [|l r IH]; simpl; [constructor|].
  destruct (is_end_of_head l) eqn:E; [constructor|]. by constructor.
Qed.

Lemma header_body_lines lines :
  (lines = header_lines lines /\ body_lines lines = []) \/
  (exists t, is_end_of_head t = true /\
             lines = header_lines lines ++ t :: body_lines lines).
Proof.
  induction lines as [|l r IH]; simpl; [by left|].
  destruct (is_end_of_head l) eqn:E.
  - right. exists l. by split.
  - destruct IH as [[H1 H2]|(t & Ht & H)].
    + left. split; [by f_equal | done].
    + right. exists t. split; [done|]. simpl. by f_equal.
Qed.

Lemma blank_not_end l : is_blank l = true -> is_end_of_head l = false.
Proof.
  unfold is_blank, is_end_of_head. intros H.
  apply String.eqb_eq in H. by rewrite H.
Qed.

Section HeaderFacts.

Context {num : Type} {N : Numeric num}.

(** A key/value line changes neither the header text, nor the attribute
    names, nor the mode. *)
Lemma key_value_frame (h h' : header num) parts :
  key_value h parts = Return h' ->
  metadata h' = metadata h /\ attributes h' = attributes h /\
  attr_line h' = attr_line h.
Proof.
  unfold key_value. destruct parts as [|key ps]; [discriminate|].
  destruct (area h) as [[[s n] w] e].
  repeat match goal with
  | |- context [if ?b then _ else _] => destruct b
  end;
  intros H; try inv_bind H; by inversion H.
Qed.

(** The lines that declare the height and the size. *)
Lemma key_value_height (h : header num) tok more x :
  parse_float tok = Some x ->
  key_value h ("height_over_ell" :: tok :: more) = Return (set_height h x).
Proof. intros Hx. unfold key_value, float_arg. simpl. by rewrite Hx. Qed.

Lemma key_value_number_of_gridpoints (h : header num) tok more n :
  parse_int tok = Some n ->
  key_value h ("number_of_gridpoints" :: tok :: more) = Return (set_size h n).
Proof. intros Hn. unfold key_value, int_arg. simpl. by rewrite Hn. Qed.

Lemma header_line_metadata (h h' : header num) line :
  header_line h line = Return h' -> metadata h' = metadata h ++ [line].
Proof.
  unfold header_line.
  destruct (is_blank line).
  - intros H. by inversion H.
  - destruct (negb _).
    + intros H. apply key_value_frame in H as (-> & _). done.
    + intros H. by inversion H.
Qed.

Lemma read_header_lines (h h' : header num) lines rest :
  read_header h lines = Return (h', rest) ->
  metadata h' = metadata h ++ header_lines lines /\ rest = body_lines lines.
Proof.
  revert h. induction lines as [|l r IH]; intros h; simpl.
  - intros H. inversion H. by rewrite app_nil_r.
  - destruct (is_end_of_head l).
    + intros H. inversion H. by rewrite app_nil_r.
    + intros H. inv_bind H. apply IH in H as (-> & ->).
      apply header_line_metadata in Hrun as ->.
      by rewrite <- app_assoc.
Qed.

End HeaderFacts.

Section AttributeLine.

Context {num : Type} {N : Numeric num}.

Lemma read_header_app (h : header num) pre lines :
  Forall (fun l => is_end_of_head l = false) pre ->
  read_header h (pre ++ lines) = run_lines h pre ≫= fun h1 => read_header h1 lines.
Proof.
  intros Hpre. revert h. induction Hpre as [|l pre Hl _ IH]; intros h; simpl.
  - reflexivity.
  - rewrite Hl. destruct (header_line h l) as [h1|e]; simpl; [apply IH | reflexivity].
Qed.

(** A blank line arms the mode. *)
Lemma header_line_blank (h : header num) l :
  is_blank l = true ->
  header_line h l = Return (set_attr_line (append_metadata h l)).
Proof. unfold header_line. by intros ->. Qed.

(** In the armed mode a line that is not blank is the attribute line, and
    the mode is cleared. *)
Lemma header_line_attributes (h : header num) l :
  is_blank l = false -> attr_line h = true ->
  header_line h l = Return (set_attributes (append_metadata h l) (split (strip l))).
Proof. unfold header_line. intros -> Hmode. simpl. by rewrite Hmode. Qed.

(** Outside the mode a line that is not blank is a key/value line. *)
Lemma header_line_key_value (h : header num) l :
  is_blank l = false -> attr_line h = false ->
  header_line h l = key_value (append_metadata h l) (split (strip l)).
Proof. unfold header_line. intros -> Hmode. simpl. by rewrite Hmode. Qed.

Lemma read_header_at_end (h h' : header num) tail rest :
  header_lines tail = [] ->
  read_header h tail = Return (h', rest) -> h' = h.
Proof.
  destruct tail as [|t tl]; simpl.
  - intros _ H. by inversion H.
  - destruct (is_end_of_head t); [|discriminate]. intros _ H. by inversion H.
Qed.

Lemma read_header_key_values (h h' : header num) post tail rest :
  Forall (fun l => is_blank l = false /\ is_end_of_head l = false) post ->
  header_lines tail = [] ->
  attr_line h = false ->
  read_header h (post ++ tail) = Return (h', rest) ->
  attributes h' = attributes h /\ attr_line h' = false.
Proof.
  intros Hpost Htail. revert h.
  induction Hpost as [|l post [Hb He] _ IH]; intros h Hmode; simpl.
  - intros H. apply read_header_at_end in H as ->; done.
  - rewrite He. intros H. inv_bind H.
    rewrite header_line_key_value in Hrun by done.
    apply key_value_frame in Hrun as (_ & Hattrs & Hm). simpl in Hattrs, Hm.
    apply IH in H as [-> ->]; [done | congruence].
Qed.

End AttributeLine.

(** ** C2: the header text *)

(** C2 (amended). Header reading stops at the first line whose trimmed
    content begins with [end_of_head], or at the end of the file; the lines
    read before it are appended to the header text verbatim and in order;
    the terminating line is not appended, and the lines after it are left
    for the body. *)
Theorem header_text_is_lines_before_end_of_head {num : Type} {N : Numeric num}
    (h h' : header num) (lines rest : list string) :
  read_header h lines = Return (h', rest) ->
  metadata h' = metadata h ++ header_lines lines /\
  Forall (fun l => is_end_of_head l = false) (header_lines lines) /\
  ((lines = header_lines lines /\ rest = []) \/
   (exists t, is_end_of_head t = true /\ lines = header_lines lines ++ t :: rest)).
Proof.
  intros H. apply read_header_lines in H as [Hm ->].
  split; [done|]. split; [apply header_lines_not_end|].
  apply header_body_lines.
Qed.

Lemma header_text_is_lines_before_end_of_head_witness :
  metadata two_line_parsed = metadata (init (num := Z)) ++ header_lines two_line_header /\
  Forall (fun l => is_end_of_head l = false) (header_lines two_line_header) /\
  ((two_line_header = header_lines two_line_header /\ [line "1 2"] = []) \/
   (exists t, is_end_of_head t = true /\
      two_line_header = header_lines two_line_header ++ t :: [line "1 2"])).
Proof.
  assert (H : read_header init two_line_header = Return (two_line_parsed, [line "1 2"]))
    by (vm_compute; reflexivity).
  exact (header_text_is_lines_before_end_of_head init two_line_parsed
           two_line_header [line "1 2"] H).
Defined.

(** C2, as stated, fails: on a header of one key/value line followed by the
    [end_of_head] line, the header text holds the first line only. *)
Lemma end_of_head_line_not_appended :
  exists h : header Z,
    read_header init two_line_header = Return (h, [line "1 2"]) /\
    metadata h = [line "latitude_parallels 2"] /\
    ~ In (line "end_of_head") (metadata h).
Proof.
  eexists. split; [vm_compute; reflexivity|]. split; [reflexivity|].
  simpl. intros [H|[]]. vm_compute in H. discriminate.
Qed.

(** ** C6: blank lines and the attribute line *)

(** C6. A blank line puts the loop in the mode where the next line that is
    not blank is the attribute line; that line is split on whitespace into
    the attribute names and clears the mode.  When the header has several
    such pairs, the names kept are those of the line that follows the last
    blank line: here [b] is blank, [l] is the line after it, and no blank
    line stands between [l] and the end of the header. *)
Theorem attribute_names_follow_last_blank_line {num : Type} {N : Numeric num}
    (h h' : header num) (pre post tail rest : list string) (b l : string) :
  Forall (fun x => is_end_of_head x = false) pre ->
  is_blank b = true ->
  is_blank l = false ->
  is_end_of_head l = false ->
  Forall (fun x => is_blank x = false /\ is_end_of_head x = false) post ->
  header_lines tail = [] ->
  read_header h (pre ++ b :: l :: post ++ tail) = Return (h', rest) ->
  (exists h1, run_lines h pre = Return h1 /\
     header_line h1 b = Return (set_attr_line (append_metadata h1 b)) /\
     header_line (set_attr_line (append_metadata h1 b)) l
       = Return (set_attributes
                   (append_metadata (set_attr_line (append_metadata h1 b)) l)
                   (split (strip l)))) /\
  attributes h' = Some (split (strip l)) /\
  attr_line h' = false.
Proof.
  intros Hpre Hb Hl Hle Hpost Htail H.
  rewrite read_header_app in H by done. inv_bind H.
  rename a into h1. simpl in H.
  rewrite (blank_not_end b Hb), Hle in H.
  pose proof (header_line_blank h1 b Hb) as Hstep1.
  pose proof (header_line_attributes (set_attr_line (append_metadata h1 b)) l Hl eq_refl)
    as Hstep2.
  rewrite Hstep1 in H. simpl in H. rewrite Hstep2 in H. simpl in H.
  apply read_header_key_values in H as [Ha Hm]; [|done..].
  split; [by exists h1|]. by rewrite Ha.
Qed.

Lemma attribute_names_follow_last_blank_line_witness :
  attributes two_attribute_header = Some ["c"; "d"] /\
  attr_line two_attribute_header = false.
Proof.
  assert (Hpre : Forall (fun x => is_end_of_head x = false)
            [line ""; line "a b"; line "latitude_parallels 2"; line "  "])
    by (repeat constructor).
  assert (Hpost : Forall (fun x => is_blank x = false /\ is_end_of_head x = false)
            [line "[deg] [deg]"])
    by (repeat constructor).
  assert (H : read_header init
            ([line ""; line "a b"; line "latitude_parallels 2"; line "  "]
             ++ line "" :: line "c d" :: [line "[deg] [deg]"]
             ++ [line "end_of_head"; line "1 2"])
          = Return (two_attribute_header, [line "1 2"]))
    by (vm_compute; reflexivity).
  exact (proj2 (attribute_names_follow_last_blank_line init two_attribute_header
           [line ""; line "a b"; line "latitude_parallels 2"; line "  "]
           [line "[deg] [deg]"] [line "end_of_head"; line "1 2"] [line "1 2"]
           (line "") (line "c d") Hpre eq_refl eq_refl eq_refl Hpost eq_refl H)).
Defined.

(** ** The stages of the reader *)

Section ReaderFacts.

Context {num : Type} {N : Numeric num}.

Lemma assert_Return (b : bool) (msg : message num) (u : unit) :
  assert b msg = Return u -> b = true.
Proof. destruct b; [done | discriminate]. Qed.

Lemma assert_false (b : bool) (msg : message num) :
  b = false -> assert b msg = Raise (AssertionError msg).
Proof. by intros ->. Qed.

(** What a run that passes every check has established; the checks hand
    back the dictionary they were given. *)
Lemma sanity_checks_Return usecols (h : header num) rawdata data d :
  sanity_checks usecols h rawdata data = Return d ->
  d = data /\
  exists n0 n1 attrs attrs',
    shape h = (Some n0, Some n1) /\ size h = Some (n0 * n1) /\
    attributes h = Some attrs /\
    apply_usecols (num := num) usecols attrs = Return attrs' /\
    length attrs' = length rawdata /\
    all_known (area h) = true /\
    check_area attrs' data = Return tt.
Proof.
  unfold sanity_checks.
  destruct (shape h) as [[n0|] [n1|]]; try discriminate.
  destruct (size h) as [sz|]; try discriminate.
  intros H.
  apply bind_Return in H as (u1 & Hprod & H).
  apply assert_Return, Z.eqb_eq in Hprod as <-.
  apply bind_Return in H as (attrs & Hattrs & H).
  apply from_option_Return in Hattrs.
  apply bind_Return in H as (attrs' & Husecols & H).
  apply bind_Return in H as (u2 & Hlen & H).
  apply assert_Return, Nat.eqb_eq in Hlen.
  apply bind_Return in H as (u3 & Harea & H).
  apply assert_Return in Harea.
  apply bind_Return in H as ([] & Hcheck & H).
  inversion H; subst d.
  split; [done|]. exists n0, n1, attrs, attrs'. repeat split; assumption || reflexivity.
Qed.

Lemma load_lines_Return usecols lines d :
  load_lines usecols lines = Return d ->
  exists (h : header num) rest rawdata,
    read_header init lines = Return (h, rest) /\
    loadtxt rest = Return rawdata /\
    package h rawdata = Return d /\
    sanity_checks usecols h rawdata d = Return d.
Proof.
  unfold load_lines. intros H.
  apply bind_Return in H as ([h rest] & Hh & H).
  apply bind_Return in H as (rawdata & Hraw & H).
  apply bind_Return in H as (data & Hdata & H).
  pose proof H as Hd. apply sanity_checks_Return in Hd as [-> _].
  by exists h, rest, rawdata.
Qed.

Lemma load_lines_stages usecols lines (h : header num) rest rawdata data :
  read_header init lines = Return (h, rest) ->
  loadtxt rest = Return rawdata ->
  package h rawdata = Return data ->
  load_lines usecols lines = sanity_checks usecols h rawdata data.
Proof.
  unfold load_lines. intros Hh Hr Hp.
  rewrite (bind_of_Return _ _ _ Hh). simpl.
  rewrite (bind_of_Return _ _ _ Hr).
  by rewrite (bind_of_Return _ _ _ Hp).
Qed.

Lemma returns_Return {E A} (m : result E A) :
  returns m = true -> exists a, m = Return a.
Proof. destruct m as [a|e]; [by exists a | discriminate]. Qed.

(** With [usecols] bound nowhere, line 84 raises before anything can be
    returned. *)
Lemma unbound_usecols_never_returns text :
  returns (load_icgem_gdf Unbound text) = false.
Proof.
  unfold load_icgem_gdf.
  destruct (load_lines Unbound (readlines text)) as [d|e] eqn:E; [|done].
  apply load_lines_Return in E as (h & rest & rawdata & _ & _ & _ & Hs).
  apply sanity_checks_Return in Hs as (_ & n0 & n1 & attrs & attrs' & _ & _ & _ & Hu & _).
  discriminate.
Qed.

(** A run that reaches line 84 with [usecols] bound nowhere raises the
    NameError. *)
Lemma unbound_usecols_raises (h : header num) rawdata data n0 n1 attrs :
  shape h = (Some n0, Some n1) -> size h = Some (n0 * n1) ->
  attributes h = Some attrs ->
  sanity_checks Unbound h rawdata data = Raise (NameError "usecols").
Proof.
  unfold sanity_checks. intros -> -> ->. by rewrite Z.eqb_refl.
Qed.

(** *** The size is set by [number_of_gridpoints] lines only *)

Lemma key_value_size (h h' : header num) parts :
  match parts with
  | first :: _ => String.eqb first "number_of_gridpoints" = false
  | [] => True
  end ->
  key_value h parts = Return h' -> size h' = size h.
Proof.
  unfold key_value. destruct parts as [|key ps]; [discriminate|].
  intros ->. destruct (area h) as [[[s n] w] e].
  repeat match goal with
  | |- context [if ?b then _ else _] => destruct b
  end;
  intros H; try inv_bind H; by inversion H.
Qed.

Lemma header_line_size (h h' : header num) l :
  declares "number_of_gridpoints" l = false ->
  header_line h l = Return h' -> size h' = size h.
Proof.
  unfold declares, header_line. intros Hkey.
  destruct (is_blank l); [intros H; by inversion H|].
  destruct (negb _).
  - intros H. apply key_value_size in H; [done|].
    by destruct (split (strip l)).
  - intros H. by inversion H.
Qed.

Lemma read_header_size (h h' : header num) lines rest :
  Forall (fun l => declares "number_of_gridpoints" l = false) (header_lines lines) ->
  read_header h lines = Return (h', rest) -> size h' = size h.
Proof.
  revert h. induction lines as [|l r IH]; intros h; simpl.
  - intros _ H. by inversion H.
  - destruct (is_end_of_head l).
    + intros _ H. by inversion H.
    + intros Hall H. inversion Hall as [|? ? Hl Hr]; subst.
      inv_bind H. apply IH in H; [|done].
      apply header_line_size in Hrun; [congruence | done].
Qed.

End ReaderFacts.

(** ** C1: the minimal file *)

(** C1. On the minimal file of the scenario, with its body given one grid
    point per line, the reader as written raises NameError at line 84: the
    name [usecols] is bound nowhere.  With the body given one attribute per
    line (three lines of four values), the reshape of line 73 already raises
    ValueError.  No record is returned either way. *)
Theorem minimal_file_raises :
  load_icgem_gdf Unbound (text_of (minimal_header ++ minimal_points))
    = Raise (NameError "usecols") /\
  load_icgem_gdf Unbound (text_of (minimal_header ++ minimal_rows))
    = Raise ValueError.
Proof. split; vm_compute; reflexivity. Qed.

(** What the claim describes is what the reader computes once [usecols]
    resolves to [None]: shape (2, 2), three columns of four values, and the
    latitude rows in increasing order. *)
Lemma minimal_file_with_usecols_none :
  let r := load_icgem_gdf (Bound None) (text_of (minimal_header ++ minimal_points)) in
  entry r "shape" = Some (VShape (Some 2, Some 2)) /\
  entry r "latitude" = Some (VArray [0; 0; 1; 1]) /\
  entry r "longitude" = Some (VArray [0; 1; 0; 1]) /\
  entry r "gravity" = Some (VArray [30; 40; 10; 20]) /\
  entry r "h_over_ellipsoid" = None.
Proof. repeat split; vm_compute; reflexivity. Qed.

(** ** C7: a header without [number_of_gridpoints] *)

(** C7 (amended). When no line of the header is a [number_of_gridpoints]
    line, the size is never set and no record is returned, whatever
    [usecols] is bound to; and when the run reaches the checks (the header
    is read, the body is loaded and the columns are packaged without error,
    which leaves out a header that gives a height) with both dimensions of
    the shape known, the error is the assertion "Couldn't read size of
    grid.". *)
Theorem missing_size_is_reported {num : Type} {N : Numeric num}
    (usecols : binding) (text : string) :
  Forall (fun l => declares "number_of_gridpoints" l = false)
         (header_lines (readlines text)) ->
  returns (load_icgem_gdf usecols text) = false /\
  forall (h : header num) rest rawdata n0 n1,
    read_header init (readlines text) = Return (h, rest) ->
    loadtxt rest = Return rawdata ->
    returns (package h rawdata) = true ->
    shape h = (Some n0, Some n1) ->
    size h = None /\
    load_icgem_gdf usecols text = Raise (AssertionError CouldntReadSize).
Proof.
  intros Hkeys. unfold load_icgem_gdf. split.
  - destruct (load_lines usecols (readlines text)) as [d|e] eqn:E; [|done].
    apply load_lines_Return in E as (h & rest & rawdata & Hh & _ & _ & Hs).
    apply sanity_checks_Return in Hs as (_ & n0 & n1 & _ & _ & _ & Hsize & _).
    apply read_header_size in Hh; [|done]. simpl in Hh. congruence.
  - intros h rest rawdata n0 n1 Hh Hr Hp Hshape.
    apply returns_Return in Hp as [data Hp].
    pose proof (read_header_size _ _ _ _ Hkeys Hh) as Hsize. simpl in Hsize.
    split; [done|].
    rewrite (load_lines_stages _ _ _ _ _ _ Hh Hr Hp).
    unfold sanity_checks. by rewrite Hshape, Hsize.
Qed.

Lemma missing_size_is_reported_witness :
  returns (load_icgem_gdf Unbound (text_of size_omitted)) = false /\
  load_icgem_gdf Unbound (text_of size_omitted)
    = Raise (AssertionError CouldntReadSize).
Proof.
  assert (Hkeys : Forall (fun l => declares "number_of_gridpoints" l = false)
                    (header_lines (readlines (text_of size_omitted))))
    by (repeat constructor).
  pose proof (missing_size_is_reported (N := IntNum) Unbound
                (text_of size_omitted) Hkeys) as [Hnone Hmsg].
  split; [exact Hnone|].
  edestruct Hmsg as [_ Hraise];
    [vm_compute; reflexivity | vm_compute; reflexivity | vm_compute; reflexivity
    | reflexivity | exact Hraise].
Defined.

(** C7, as stated, fails: a file without a [number_of_gridpoints] line
    that gives a height raises the TypeError of [np.ones(None)] at line 75,
    and one whose rows do not reshape to the shape raises the ValueError of
    line 73; neither reaches the assertion of line 79. *)
Lemma missing_size_raises_before_assertion :
  Forall (fun l => declares "number_of_gridpoints" l = false)
         (header_lines (readlines (text_of size_omitted_with_height))) /\
  load_icgem_gdf (N := IntNum) Unbound (text_of size_omitted_with_height)
    = Raise TypeError /\
  load_icgem_gdf (N := IntNum) (Bound None) (text_of size_omitted_with_height)
    = Raise TypeError /\
  Forall (fun l => declares "number_of_gridpoints" l = false)
         (header_lines (readlines (text_of size_omitted_six_points))) /\
  load_icgem_gdf (N := IntNum) Unbound (text_of size_omitted_six_points)
    = Raise ValueError /\
  load_icgem_gdf (N := IntNum) (Bound None) (text_of size_omitted_six_points)
    = Raise ValueError.
Proof.
  split; [repeat constructor|].
  split; [vm_compute; reflexivity|].
  split; [vm_compute; reflexivity|].
  split; [repeat constructor|].
  split; vm_compute; reflexivity.
Qed.

(** ** C3: shape and size *)

(** C3 (amended). A returned record comes from a header whose two shape
    dimensions multiply to the declared size.  When the header is read, the
    body is loaded and the columns are packaged without error (every stored
    row reshapes to the shape and, when the header gives a height,
    [np.ones(size)] succeeds), with both dimensions and the size known and
    a product that differs from the size, the read raises the assertion
    "Grid shape ... and size ... mismatch." carrying the shape and the size,
    and no record is returned. *)
Theorem shape_product_is_size {num : Type} {N : Numeric num}
    (usecols : binding) (text : string) :
  (forall d, load_icgem_gdf usecols text = Return d ->
     exists (h : header num) rest n0 n1,
       read_header init (readlines text) = Return (h, rest) /\
       shape h = (Some n0, Some n1) /\ size h = Some (n0 * n1)) /\
  (forall (h : header num) rest rawdata n0 n1 sz,
     read_header init (readlines text) = Return (h, rest) ->
     loadtxt rest = Return rawdata ->
     returns (package h rawdata) = true ->
     shape h = (Some n0, Some n1) ->
     size h = Some sz ->
     n0 * n1 <> sz ->
     load_icgem_gdf usecols text
       = Raise (AssertionError (ShapeSizeMismatch (n0, n1) sz))).
Proof.
  unfold load_icgem_gdf. split.
  - intros d E.
    apply load_lines_Return in E as (h & rest & rawdata & Hh & _ & _ & Hs).
    apply sanity_checks_Return in Hs as (_ & n0 & n1 & _ & _ & Hshape & Hsize & _).
    by exists h, rest, n0, n1.
  - intros h rest rawdata n0 n1 sz Hh Hr Hp Hshape Hsize Hne.
    apply returns_Return in Hp as [data Hp].
    rewrite (load_lines_stages _ _ _ _ _ _ Hh Hr Hp).
    unfold sanity_checks. rewrite Hshape, Hsize.
    apply Z.eqb_neq in Hne. by rewrite Hne.
Qed.

Lemma shape_product_is_size_witness :
  (exists (d : gmap string (value Z)) (h : header Z) rest n0 n1,
     load_icgem_gdf (Bound None) (text_of (minimal_header ++ minimal_points)) = Return d /\
     read_header init (readlines (text_of (minimal_header ++ minimal_points)))
       = Return (h, rest) /\
     shape h = (Some n0, Some n1) /\ size h = Some (n0 * n1)) /\
  load_icgem_gdf Unbound (text_of five_declared)
    = Raise (AssertionError (ShapeSizeMismatch (2, 2) 5)).
Proof.
  split.
  - assert (Hret : returns (load_icgem_gdf (N := IntNum) (Bound None)
                               (text_of (minimal_header ++ minimal_points))) = true)
      by (vm_compute; reflexivity).
    destruct (returns_Return _ Hret) as [d E].
    destruct (proj1 (shape_product_is_size (N := IntNum) (Bound None)
                       (text_of (minimal_header ++ minimal_points))) d E)
      as (h & rest & n0 & n1 & Hh & Hshape & Hsize).
    exists d, h, rest, n0, n1.
    exact (conj E (conj Hh (conj Hshape Hsize))).
  - eapply (proj2 (shape_product_is_size (N := IntNum) Unbound (text_of five_declared)));
      [vm_compute; reflexivity | vm_compute; reflexivity | vm_compute; reflexivity
      | reflexivity | reflexivity | discriminate].
Defined.

(** C3, as stated, fails: with shape 2 by 2 in the header, six points
    declared and six points in the body, the product disagrees with the
    size, and the read raises the ValueError of the reshape of line 73, not
    the mismatch assertion of line 81. *)
Lemma reshape_error_precedes_mismatch :
  shape (header_of (read_header (N := IntNum) init (readlines (text_of six_points))))
    = (Some 2, Some 2) /\
  size (header_of (read_header (N := IntNum) init (readlines (text_of six_points))))
    = Some 6 /\
  load_icgem_gdf Unbound (text_of six_points) = Raise ValueError /\
  load_icgem_gdf (Bound None) (text_of six_points) = Raise ValueError.
Proof. repeat split; vm_compute; reflexivity. Qed.

(** Likewise with a height and 10^30 points declared: [np.ones(size)] of
    line 75 raises ValueError, and the assertion of line 81 is not
    reached. *)
Lemma oversized_height_column_raises :
  load_icgem_gdf (N := IntNum) Unbound (text_of oversized_with_height)
    = Raise ValueError /\
  load_icgem_gdf (N := IntNum) (Bound None) (text_of oversized_with_height)
    = Raise ValueError.
Proof. split; vm_compute; reflexivity. Qed.

(** ** C5: the area check *)

Section AreaCheck.

Context {num : Type} {N : Numeric num}.

Lemma get_array_Return (data : gmap string (value num)) key a :
  get_array data key = Return a -> data !! key = Some (VArray a).
Proof.
  unfold get_array. destruct (data !! key) as [[]|]; try discriminate.
  by intros [= ->].
Qed.

(** Lines 90 to 95 pass only when the computed bounds are close to the
    declared ones, in the order south, north, west, east. *)
Lemma check_area_Return attrs (data : gmap string (value num)) :
  check_area attrs data = Return tt ->
  mem "latitude" attrs = true -> mem "longitude" attrs = true ->
  exists lat lon c0 c1 c2 c3,
    data !! "latitude" = Some (VArray lat) /\
    data !! "longitude" = Some (VArray lon) /\
    array_min lat = Return c0 /\ array_max lat = Return c1 /\
    array_min lon = Return c2 /\ array_max lon = Return c3 /\
    allclose (c0, c1, c2, c3) (data !! "area") = Return true.
Proof.
  unfold check_area. intros H Hlat Hlon. rewrite Hlat, Hlon in H. simpl in H.
  clear Hlat Hlon.
  apply bind_Return in H as (lat & Hlat & H).
  apply bind_Return in H as (lon & Hlon & H).
  apply bind_Return in H as (c0 & Hc0 & H).
  apply bind_Return in H as (c1 & Hc1 & H).
  apply bind_Return in H as (c2 & Hc2 & H).
  apply bind_Return in H as (c3 & Hc3 & H).
  apply bind_Return in H as (ok & Hok & H).
  destruct (data !! "area") as [declared|] eqn:Harea; [|discriminate].
  apply assert_Return in H as ->.
  apply get_array_Return in Hlat, Hlon.
  by exists lat, lon, c0, c1, c2, c3.
Qed.

(** A record is returned only if the area check passed. *)
Lemma returned_record_area_is_close usecols text (d : gmap string (value num)) :
  load_icgem_gdf usecols text = Return d ->
  exists (h : header num) rest attrs attrs',
    read_header init (readlines text) = Return (h, rest) /\
    attributes h = Some attrs /\
    apply_usecols (num := num) usecols attrs = Return attrs' /\
    (mem "latitude" attrs' = true -> mem "longitude" attrs' = true ->
     exists lat lon c0 c1 c2 c3,
       d !! "latitude" = Some (VArray lat) /\
       d !! "longitude" = Some (VArray lon) /\
       array_min lat = Return c0 /\ array_max lat = Return c1 /\
       array_min lon = Return c2 /\ array_max lon = Return c3 /\
       allclose (c0, c1, c2, c3) (d !! "area") = Return true).
Proof.
  unfold load_icgem_gdf. intros E.
  apply load_lines_Return in E as (h & rest & rawdata & Hh & _ & _ & Hs).
  apply sanity_checks_Return in Hs
    as (_ & n0 & n1 & attrs & attrs' & _ & _ & Hattrs & Hu & _ & _ & Hcheck).
  exists h, rest, attrs, attrs'. repeat (split; [done|]).
  by apply check_area_Return.
Qed.

End AreaCheck.

(** C5. On the minimal file with the southern bound of the header moved
    from 0 to 1, the reader as written raises NameError at line 84 and never
    reaches the area check of lines 90 to 95; were [usecols] bound to
    [None], that check would raise the area mismatch with the bounds of the
    header and the computed ones. *)
Theorem perturbed_bound_raises_name_error :
  load_icgem_gdf Unbound (text_of south_perturbed) = Raise (NameError "usecols") /\
  load_icgem_gdf (Bound None) (text_of south_perturbed)
    = Raise (AssertionError
               (AreaMismatch (VArea (Some 1, Some 1, Some 0, Some 1)) (0, 1, 0, 1))).
Proof. split; vm_compute; reflexivity. Qed.

(** ** C8: fewer data columns than attribute names *)

(** C8. On a file with three attribute names and two values per grid
    point, the reader as written raises NameError at line 84 and never
    reaches the comparison of lines 86 to 88; were [usecols] bound to
    [None], that comparison would raise the mismatch of 3 attributes and 2
    data columns. *)
Theorem two_columns_raise_name_error :
  load_icgem_gdf Unbound (text_of two_columns) = Raise (NameError "usecols") /\
  load_icgem_gdf (Bound None) (text_of two_columns)
    = Raise (AssertionError (AttributesColumnsMismatch 3 2)).
Proof. split; vm_compute; reflexivity. Qed.

(** ** Reshaping and the stored columns *)

Section Grid.

Context {A : Type}.
Implicit Types (v r : list A) (rs : list (list A)).

Local Open Scope nat_scope.

Lemma concat_grid_row (b : nat) rs (k : nat) r :
  Forall (fun r => length r = b) rs ->
  rs !! k = Some r ->
  grid_row b k (concat rs) = r.
Proof.
  unfold grid_row. intros Hall. revert k.
  induction Hall as [|r0 rs Hr0 _ IH]; intros k; [done|].
  destruct k as [|k]; simpl.
  - intros [= ->]. apply take_app_length'. by symmetry.
  - intros Hk. rewrite drop_app_add' by (by symmetry). by apply IH.
Qed.

End Grid.

Section Columns.

Context {num : Type} {N : Numeric num}.

Local Open Scope nat_scope.

Lemma rows_of_length (a b : nat) (v : list num) : length (rows_of a b v) = a.
Proof. unfold rows_of. by rewrite length_fmap, length_seq. Qed.

Lemma rows_of_lookup (a b : nat) (v : list num) (k : nat) :
  k < a -> rows_of a b v !! k = Some (grid_row b k v).
Proof.
  intros Hk. unfold rows_of. rewrite list_lookup_fmap.
  by rewrite lookup_seq_lt.
Qed.

Lemma rows_of_row_length (a b : nat) (v : list num) :
  length v = a * b ->
  Forall (fun r => length r = b) (rows_of a b v).
Proof.
  intros Hlen. unfold rows_of. apply Forall_fmap, Forall_forall.
  intros i Hi. apply elem_of_seq in Hi. simpl.
  rewrite length_take, length_drop. nia.
Qed.

(** Row [k] of the flipped grid is row [a - 1 - k] of the raw one. *)
Lemma flipped_row (a b : nat) (v : list num) (k : nat) :
  length v = a * b -> k < a ->
  grid_row b k (concat (reverse (rows_of a b v))) = grid_row b (a - 1 - k) v.
Proof.
  intros Hlen Hk. apply concat_grid_row.
  - apply Forall_reverse. by apply rows_of_row_length.
  - rewrite reverse_lookup by (rewrite rows_of_length; lia).
    rewrite rows_of_length.
    replace (a - S k) with (a - 1 - k) by lia.
    apply rows_of_lookup. lia.
Qed.

Lemma reshape_dims_spec (a b n a' b' : Z) :
  (0 <= n)%Z ->
  reshape_dims a b n = Some (a', b') ->
  (0 <= a')%Z /\ (0 <= b')%Z /\ (a' * b' = n)%Z /\
  ((0 <= a)%Z -> (0 <= b)%Z -> a' = a /\ b' = b).
Proof.
  intros Hn. unfold reshape_dims.
  destruct (negb _); [discriminate|].
  destruct (resolve_dims a b n) as [[a0 b0]|] eqn:Hdims; [|discriminate].
  destruct (fits_array a0 b0); [|discriminate].
  intros [= <- <-]. revert Hdims. unfold resolve_dims.
  destruct (Z.ltb_spec a 0) as [Ha|Ha]; destruct (Z.ltb_spec b 0) as [Hb|Hb];
    try discriminate.
  - destruct (Z.eqb_spec b 0) as [->|Hb0]; [discriminate|]. simpl.
    destruct (Z.eqb_spec (n mod b) 0) as [Hmod|]; [|discriminate]. simpl.
    intros [= <- <-].
    apply Z.div_exact in Hmod; [|done].
    split; [apply Z.div_pos; lia|]. split; [done|]. split; lia.
  - destruct (Z.eqb_spec a 0) as [->|Ha0]; [discriminate|]. simpl.
    destruct (Z.eqb_spec (n mod a) 0) as [Hmod|]; [|discriminate]. simpl.
    intros [= <- <-].
    apply Z.div_exact in Hmod; [|done].
    split; [done|]. split; [apply Z.div_pos; lia|]. split; lia.
  - destruct (Z.eqb_spec (a * b) n) as [Hab|]; [|discriminate].
    intros [= <- <-]. lia.
Qed.

(** What line 73 stores: the rows of the reshaped array, last row first. *)
Lemma flip_latitude_Return (sh : shape_t) (v col : list num) :
  flip_latitude sh v = Return col ->
  exists (n0 n1 : Z) (lat lon : nat),
    sh = (Some n0, Some n1) /\
    reshape_dims n0 n1 (Z.of_nat (length v)) = Some (Z.of_nat lat, Z.of_nat lon) /\
    length v = lat * lon /\
    ((0 <= n0)%Z -> (0 <= n1)%Z -> Z.of_nat lat = n0 /\ Z.of_nat lon = n1) /\
    col = concat (reverse (rows_of lat lon v)).
Proof.
  unfold flip_latitude, reshape. intros H.
  apply bind_Return in H as (rows & Hrows & H).
  destruct sh as [[n0|] [n1|]]; try discriminate;
    [|by destruct (fits_index n0)].
  apply bind_Return in Hrows as ([a' b'] & Hdims & Hrows).
  apply from_option_Return in Hdims.
  pose proof (reshape_dims_spec _ _ _ _ _ (Nat2Z.is_nonneg _) Hdims)
    as (Ha' & Hb' & Hprod & Hsame).
  exists n0, n1, (Z.to_nat a'), (Z.to_nat b').
  rewrite !Z2Nat.id by done.
  inversion Hrows; subst rows. inversion H; subst col.
  repeat split; try done; lia.
Qed.

Lemma zip_fst_take {B C} (l : list B) (k : list C) :
  (zip l k).*1 = take (length k) l.
Proof.
  revert k. induction l as [|x l IH]; intros [|y k]; simpl; try done.
  by rewrite IH.
Qed.

Lemma zip_lookup_Some {B C} (l : list B) (k : list C) (i : nat) x y :
  zip l k !! i = Some (x, y) <-> l !! i = Some x /\ k !! i = Some y.
Proof.
  split.
  - intros H. apply lookup_zip_with_Some in H as (x' & y' & [= -> ->] & Hx & Hy).
    done.
  - intros [Hx Hy]. apply lookup_zip_with_Some. by exists x, y.
Qed.

(** The loop of lines 69 to 73 leaves the other keys alone. *)
Lemma store_columns_frame (sh : shape_t) cols (data d : gmap string (value num)) key :
  store_columns sh cols data = Return d ->
  key ∉ cols.*1 -> d !! key = data !! key.
Proof.
  revert data. induction cols as [|[attr v] cols IH]; intros data; simpl.
  - by intros [= ->].
  - intros H Hkey. apply bind_Return in H as (col & _ & H).
    apply not_elem_of_cons in Hkey as [Hne Hkey].
    rewrite (IH _ H Hkey). by rewrite lookup_insert_ne.
Qed.

(** A name holds the flipped row of its last pairing. *)
Lemma store_columns_last (sh : shape_t) cols (data d : gmap string (value num))
    (i : nat) key v :
  store_columns sh cols data = Return d ->
  cols !! i = Some (key, v) ->
  key ∉ (drop (S i) cols).*1 ->
  exists col, flip_latitude sh v = Return col /\ d !! key = Some (VArray col).
Proof.
  revert data i. induction cols as [|[attr w] cols IH]; intros data i; simpl; [done|].
  intros H. apply bind_Return in H as (col & Hcol & H).
  destruct i as [|i]; simpl.
  - intros [= -> ->] Hlast. exists col. split; [done|].
    rewrite (store_columns_frame _ _ _ _ _ H Hlast). by rewrite lookup_insert_eq.
  - intros Hi Hlast. by eapply IH.
Qed.

Lemma store_columns_stored (sh : shape_t) cols (data d : gmap string (value num)) key :
  store_columns sh cols data = Return d ->
  key ∈ cols.*1 ->
  exists (i : nat) v col,
    cols !! i = Some (key, v) /\ flip_latitude sh v = Return col /\
    d !! key = Some (VArray col).
Proof.
  revert data. induction cols as [|[attr w] cols IH]; intros data; simpl.
  - intros _ Hin. by apply elem_of_nil in Hin.
  - intros H Hin. apply bind_Return in H as (col & Hcol & H).
    destruct (decide (key ∈ cols.*1)) as [Hlater|Hlast].
    + destruct (IH _ H Hlater) as (i & v & c & Hi & Hc & Hd).
      by exists (S i), v, c.
    + apply elem_of_cons in Hin as [->|Hin]; [|done].
      exists 0%nat, w, col. split; [done|]. split; [done|].
      rewrite (store_columns_frame _ _ _ _ _ H Hlast). by rewrite lookup_insert_eq.
Qed.

(** Lines 68 to 75. *)
Lemma package_Return (h : header num) rawdata d :
  package h rawdata = Return d ->
  exists attrs data,
    attributes h = Some attrs /\
    store_columns (shape h) (zip attrs rawdata) (header_entries h) = Return data /\
    match height h with
    | None => d = data
    | Some x =>
        exists col, height_column x (size h) = Return col /\
                    d = <["h_over_ellipsoid" := col]> data
    end.
Proof.
  unfold package. intros H.
  apply bind_Return in H as (attrs & Hattrs & H).
  apply from_option_Return in Hattrs.
  apply bind_Return in H as (data & Hdata & H).
  exists attrs, data. split; [done|]. split; [done|].
  destruct (height h) as [x|].
  - apply bind_Return in H as (col & Hcol & H). exists col.
    split; [done|]. by inversion H.
  - by inversion H.
Qed.

End Columns.

Section Record.

Context {num : Type} {N : Numeric num}.

Lemma stored_names_zip (attrs : list string) (rawdata : list (list num)) :
  (zip attrs rawdata).*1 = stored_names attrs rawdata.
Proof. apply zip_fst_take. Qed.

Lemma header_entries_shape (h : header num) :
  header_entries h !! "shape" = Some (VShape (shape h)).
Proof.
  unfold header_entries.
  rewrite lookup_insert_ne by done. rewrite lookup_insert_ne by done.
  by rewrite lookup_insert_eq.
Qed.

Lemma header_entries_area (h : header num) :
  header_entries h !! "area" = Some (VArea (area h)).
Proof.
  unfold header_entries.
  rewrite lookup_insert_ne by done. by rewrite lookup_insert_eq.
Qed.

Lemma header_entries_metadata (h : header num) :
  header_entries h !! "metadata" = Some (VStr (join (metadata h))).
Proof. unfold header_entries. by rewrite lookup_insert_eq. Qed.

(** A returned dictionary is the packaged one: the stored columns over the
    entries of line 68, then the height column if there is a height. *)
Lemma load_Return usecols text d :
  load_icgem_gdf usecols text = Return d ->
  exists (h : header num) rest rawdata attrs attrs' data n0 n1,
    read_header init (readlines text) = Return (h, rest) /\
    loadtxt rest = Return rawdata /\
    attributes h = Some attrs /\
    shape h = (Some n0, Some n1) /\ size h = Some (n0 * n1) /\
    store_columns (shape h) (zip attrs rawdata) (header_entries h) = Return data /\
    match height h with
    | None => d = data
    | Some x =>
        exists col, height_column x (size h) = Return col /\
                    d = <["h_over_ellipsoid" := col]> data
    end /\
    apply_usecols (num := num) usecols attrs = Return attrs' /\
    length attrs' = length rawdata.
Proof.
  unfold load_icgem_gdf. intros E.
  apply load_lines_Return in E as (h & rest & rawdata & Hh & Hr & Hp & Hs).
  apply sanity_checks_Return in Hs
    as (_ & n0 & n1 & attrs0 & attrs' & Hshape & Hsize & Hattrs0 & Hu & Hlen & _).
  apply package_Return in Hp as (attrs & data & Hattrs & Hstore & Hheight).
  assert (attrs0 = attrs) as -> by congruence.
  exists h, rest, rawdata, attrs, attrs', data, n0, n1.
  repeat split; done.
Qed.

(** The keys other than [h_over_ellipsoid] are as the loop left them. *)
Lemma height_column_frame (h : header num) (d data : gmap string (value num)) key :
  match height h with
  | None => d = data
  | Some x =>
      exists col, height_column x (size h) = Return col /\
                  d = <["h_over_ellipsoid" := col]> data
  end ->
  (key = "h_over_ellipsoid" -> height h = None) ->
  d !! key = data !! key.
Proof.
  destruct (height h) as [x|].
  - intros (col & _ & ->) Hkey. apply lookup_insert_ne.
    intros <-. by specialize (Hkey eq_refl).
  - by intros ->.
Qed.

End Record.

(** ** C4: the latitude axis is reversed *)

(** C4 (amended). In a returned record, the column stored under an
    attribute name is the raw row paired with it, reshaped to the grid
    shape, its rows taken in reverse order and flattened: row [k] of the
    stored column is row [lat - 1 - k] of the raw row, so that its first row
    is the last band of the file and its last row the first one.  The name
    is one that no later pair stores again, and not [h_over_ellipsoid] when
    the header gives a height (line 75 then stores the height column under
    it). *)
Theorem stored_column_is_flipped_row {num : Type} {N : Numeric num}
    (usecols : binding) (text : string) (d : gmap string (value num)) :
  load_icgem_gdf usecols text = Return d ->
  exists (h : header num) rest rawdata attrs n0 n1,
    read_header init (readlines text) = Return (h, rest) /\
    loadtxt rest = Return rawdata /\
    attributes h = Some attrs /\
    shape h = (Some n0, Some n1) /\
    forall (i : nat) name row,
      attrs !! i = Some name ->
      rawdata !! i = Some row ->
      name ∉ drop (S i) (stored_names attrs rawdata) ->
      (name = "h_over_ellipsoid" -> height h = None) ->
      exists lat lon : nat,
        reshape_dims n0 n1 (Z.of_nat (length row))
          = Some (Z.of_nat lat, Z.of_nat lon) /\
        (0 <= n0 -> 0 <= n1 -> Z.of_nat lat = n0 /\ Z.of_nat lon = n1) /\
        d !! name = Some (VArray (concat (reverse (rows_of lat lon row)))) /\
        forall k : nat, (k < lat)%nat ->
          grid_row lon k (concat (reverse (rows_of lat lon row)))
            = grid_row lon (lat - 1 - k) row.
Proof.
  intros E.
  apply load_Return in E
    as (h & rest & rawdata & attrs & attrs' & data & n0 & n1
        & Hh & Hr & Hattrs & Hshape & Hsize & Hstore & Hheight & _).
  exists h, rest, rawdata, attrs, n0, n1. repeat (split; [done|]).
  intros i name row Hi Hrow Hlast Hhoe.
  assert (Hpair : zip attrs rawdata !! i = Some (name, row))
    by by apply zip_lookup_Some.
  rewrite <- stored_names_zip, <- fmap_drop in Hlast.
  destruct (store_columns_last _ _ _ _ _ _ _ Hstore Hpair Hlast) as (col & Hcol & Hd).
  apply flip_latitude_Return in Hcol
    as (m0 & m1 & lat & lon & Hsh & Hdims & Hlen & Hsame & ->).
  rewrite Hshape in Hsh. injection Hsh as <- <-.
  exists lat, lon. split; [done|]. split; [done|]. split.
  - by rewrite (height_column_frame h d data name Hheight Hhoe).
  - intros k Hk. by apply flipped_row.
Qed.

Lemma stored_column_is_flipped_row_witness :
  exists d : gmap string (value Z),
    load_icgem_gdf (Bound None) (text_of (minimal_header ++ minimal_points)) = Return d /\
    d !! "latitude" = Some (VArray [0; 0; 1; 1]) /\
    grid_row 2 0 [0; 0; 1; 1] = grid_row 2 1 [1; 1; 0; 0].
Proof.
  assert (Hret : returns (load_icgem_gdf (N := IntNum) (Bound None)
                             (text_of (minimal_header ++ minimal_points))) = true)
    by (vm_compute; reflexivity).
  destruct (returns_Return _ Hret) as [d E].
  exists d. split; [exact E|].
  destruct (stored_column_is_flipped_row _ _ _ E)
    as (h & rest & rawdata & attrs & n0 & n1 & Hh & Hr & Hattrs & Hshape & Hcols).
  vm_compute in Hh. injection Hh as <- <-.
  vm_compute in Hr. injection Hr as <-.
  vm_compute in Hattrs. injection Hattrs as <-.
  vm_compute in Hshape. injection Hshape as <- <-.
  destruct (Hcols 0%nat "latitude" [1; 1; 0; 0] eq_refl eq_refl)
    as (lat & lon & Hdims & _ & Hd & Hrows).
  - vm_compute. intros Hin. apply elem_of_cons in Hin as [Hin|Hin]; [discriminate|].
    apply elem_of_cons in Hin as [Hin|Hin]; [discriminate|].
    by apply elem_of_nil in Hin.
  - discriminate.
  - change (reshape_dims 2 2 (Z.of_nat (length [1; 1; 0; 0]))) with (Some (2, 2))
      in Hdims.
    injection Hdims as Hlat Hlon.
    assert (lat = 2%nat) as -> by lia. assert (lon = 2%nat) as -> by lia.
    split; [exact Hd|]. exact (Hrows 0%nat ltac:(lia)).
Defined.

(** C4, as stated, fails for an attribute whose key is stored again.  With
    a height of 7 and a third attribute named [h_over_ellipsoid], the record
    holds the height column under that name, not the flipped third row; with
    the first and the third attribute both named [gravity], the record holds
    the flipped third row, not the flipped first one. *)
Lemma later_store_replaces_column :
  (exists (h : header Z) rest,
     read_header init (readlines (text_of height_attribute)) = Return (h, rest) /\
     attributes h = Some ["latitude"; "longitude"; "h_over_ellipsoid"] /\
     loadtxt rest = Return [[1; 1; 0; 0]; [0; 1; 0; 1]; [10; 20; 30; 40]] /\
     flip_latitude (shape h) [10; 20; 30; 40] = Return [30; 40; 10; 20] /\
     entry (load_icgem_gdf (Bound None) (text_of height_attribute)) "h_over_ellipsoid"
       = Some (VArray [7; 7; 7; 7])) /\
  (exists (h : header Z) rest,
     read_header init (readlines (text_of gravity_twice)) = Return (h, rest) /\
     attributes h = Some ["gravity"; "longitude"; "gravity"] /\
     loadtxt rest = Return [[1; 1; 0; 0]; [0; 1; 0; 1]; [10; 20; 30; 40]] /\
     flip_latitude (shape h) [1; 1; 0; 0] = Return [0; 0; 1; 1] /\
     entry (load_icgem_gdf (Bound None) (text_of gravity_twice)) "gravity"
       = Some (VArray [30; 40; 10; 20])).
Proof.
  split; do 2 eexists;
    (split; [vm_compute; reflexivity|]);
    (split; [reflexivity|]);
    (split; [vm_compute; reflexivity|]);
    (split; vm_compute; reflexivity).
Qed.

(** ** C9: the height column *)

(** C9. When the header gives the height [H] and the size [n] and a record
    is returned, the record holds under [h_over_ellipsoid] an array of [n]
    elements, each of them [H].  The product [H * 1.0] of line 75 is [H]:
    that is the law of the arithmetic assumed here. *)
Theorem height_column_is_constant {num : Type} {N : Numeric num}
    (usecols : binding) (text : string) (d : gmap string (value num))
    (h : header num) (rest : list string) (H : num) (n : Z) :
  (forall x : num, mul x one = x) ->
  load_icgem_gdf usecols text = Return d ->
  read_header init (readlines text) = Return (h, rest) ->
  height h = Some H ->
  size h = Some n ->
  0 <= n /\
  d !! "h_over_ellipsoid" = Some (VArray (replicate (Z.to_nat n) H)).
Proof.
  intros Hone E Hh Hheight Hsize.
  apply load_Return in E
    as (h' & rest' & rawdata & attrs & attrs' & data & n0 & n1
        & Hh' & _ & _ & _ & _ & _ & Hcol & _).
  rewrite Hh in Hh'. injection Hh' as <- <-.
  rewrite Hheight in Hcol. destruct Hcol as (col & Hcol & ->).
  rewrite Hsize in Hcol. unfold height_column in Hcol.
  destruct (Z.ltb_spec n 0) as [|Hn]; [discriminate|].
  destruct (max_elements <? n); [discriminate|].
  injection Hcol as <-. split; [done|].
  by rewrite lookup_insert_eq, fmap_replicate, Hone.
Qed.

Lemma height_column_is_constant_witness :
  exists d : gmap string (value Z),
    load_icgem_gdf (Bound None) (text_of with_height) = Return d /\
    0 <= 4 /\
    d !! "h_over_ellipsoid" = Some (VArray (replicate (Z.to_nat 4) 7)).
Proof.
  assert (Hret : returns (load_icgem_gdf (N := IntNum) (Bound None)
                             (text_of with_height)) = true)
    by (vm_compute; reflexivity).
  destruct (returns_Return _ Hret) as [d E].
  exists d. split; [exact E|].
  eapply (height_column_is_constant (N := IntNum) (Bound None) (text_of with_height) d);
    [exact Z.mul_1_r | exact E | vm_compute; reflexivity | reflexivity | reflexivity].
Defined.

(** ** C10: one namespace for columns and header entries *)

(** C10. In a returned record each of the entries [shape], [area] and
    [metadata] is the value read from the header exactly when no attribute
    paired with a data row bears that name; an attribute of that name
    replaces the entry by its column, the flipped raw row.  When [usecols]
    is [None] the attributes paired with a row are all the attributes of
    the file. *)
Theorem attribute_replaces_header_entry {num : Type} {N : Numeric num}
    (usecols : binding) (text : string) (d : gmap string (value num)) :
  load_icgem_gdf usecols text = Return d ->
  exists (h : header num) rest rawdata attrs,
    read_header init (readlines text) = Return (h, rest) /\
    loadtxt rest = Return rawdata /\
    attributes h = Some attrs /\
    (usecols = Bound None -> stored_names attrs rawdata = attrs) /\
    header_entries h !! "shape" = Some (VShape (shape h)) /\
    header_entries h !! "area" = Some (VArea (area h)) /\
    header_entries h !! "metadata" = Some (VStr (join (metadata h))) /\
    forall key, key ∈ ["shape"; "area"; "metadata"] ->
      (d !! key = header_entries h !! key <-> key ∉ stored_names attrs rawdata) /\
      (key ∈ stored_names attrs rawdata ->
         exists (i : nat) row col,
           attrs !! i = Some key /\ rawdata !! i = Some row /\
           flip_latitude (shape h) row = Return col /\
           d !! key = Some (VArray col)).
Proof.
  intros E.
  apply load_Return in E
    as (h & rest & rawdata & attrs & attrs' & data & n0 & n1
        & Hh & Hr & Hattrs & _ & _ & Hstore & Hheight & Hu & Hlen).
  exists h, rest, rawdata, attrs. repeat (split; [done|]).
  split.
  { intros ->. injection Hu as <-. unfold stored_names.
    apply take_ge. by rewrite Hlen. }
  split; [apply header_entries_shape|].
  split; [apply header_entries_area|].
  split; [apply header_entries_metadata|].
  intros key Hkey.
  assert (Hd : d !! key = data !! key).
  { apply (height_column_frame h); [done|]. intros ->.
    repeat (apply elem_of_cons in Hkey as [Hkey|Hkey]; [discriminate|]).
    by apply elem_of_nil in Hkey. }
  assert (Hstored : key ∈ stored_names attrs rawdata ->
            exists (i : nat) row col,
              attrs !! i = Some key /\ rawdata !! i = Some row /\
              flip_latitude (shape h) row = Return col /\
              d !! key = Some (VArray col)).
  { intros Hin. rewrite <- stored_names_zip in Hin.
    destruct (store_columns_stored _ _ _ _ _ Hstore Hin) as (i & row & col & Hi & Hcol & Hk).
    apply zip_lookup_Some in Hi as [Hi Hrow].
    exists i, row, col. by rewrite Hd. }
  split; [|done]. split.
  - intros Heq Hin. destruct (Hstored Hin) as (i & row & col & _ & _ & _ & Hcol).
    rewrite Hcol in Heq.
    repeat (apply elem_of_cons in Hkey as [->|Hkey];
      [by rewrite ?header_entries_shape, ?header_entries_area,
            ?header_entries_metadata in Heq|]).
    by apply elem_of_nil in Hkey.
  - intros Hnot. rewrite Hd. apply (store_columns_frame _ _ _ _ _ Hstore).
    by rewrite stored_names_zip.
Qed.

Lemma attribute_replaces_header_entry_witness :
  exists d : gmap string (value Z),
    load_icgem_gdf (Bound None) (text_of shape_attribute) = Return d /\
    d !! "shape" = Some (VArray [30; 40; 10; 20]) /\
    d !! "area" = Some (VArea (Some 0, Some 1, Some 0, Some 1)).
Proof.
  assert (Hret : returns (load_icgem_gdf (N := IntNum) (Bound None)
                             (text_of shape_attribute)) = true)
    by (vm_compute; reflexivity).
  destruct (returns_Return _ Hret) as [d E].
  exists d. split; [exact E|].
  destruct (attribute_replaces_header_entry _ _ _ E)
    as (h & rest & rawdata & attrs & Hh & Hr & Hattrs & _ & _ & Harea & _ & Hkeys).
  vm_compute in Hh. injection Hh as <- <-.
  vm_compute in Hr. injection Hr as <-.
  vm_compute in Hattrs. injection Hattrs as <-.
  split.
  - destruct (Hkeys "shape") as [_ Hshape]; [repeat constructor|].
    destruct Hshape as (i & row & col & Hi & Hrow & Hcol & Hd).
    { vm_compute. repeat constructor. }
    destruct i as [|[|[|i]]]; try discriminate.
    injection Hrow as <-. vm_compute in Hcol. injection Hcol as <-. exact Hd.
  - destruct (Hkeys "area") as [[_ Harea'] _]; [repeat constructor|].
    rewrite Harea'; [exact Harea|].
    vm_compute. intros Hin.
    repeat (apply elem_of_cons in Hin as [Hin|Hin]; [discriminate|]).
    by apply elem_of_nil in Hin.
Defined.

(** ** What the reader as written can raise *)

Lemma bind_Raise {E A B} (m : result E A) (k : A -> result E B) (e : E) :
  m ≫= k = Raise e -> m = Raise e \/ exists a, m = Return a /\ k a = Raise e.
Proof.
  destruct m as [a|e']; intros H; [right; eauto|].
  left. change (@Raise E B e' = Raise e) in H. by injection H as ->.
Qed.

Lemma from_option_Raise {E A} (e0 e : E) (o : option A) :
  from_option e0 o = Raise e -> e = e0.
Proof. destruct o; simpl; congruence. Qed.

Section Raised.

Context {num : Type} {N : Numeric num}.

Lemma int_arg_raises parts (e : exn num) :
  int_arg parts = Raise e -> builtin e = true.
Proof.
  unfold int_arg. intros H.
  apply bind_Raise in H as [H|(tok & _ & H)];
    apply from_option_Raise in H as ->; done.
Qed.

Lemma float_arg_raises parts (e : exn num) :
  float_arg parts = Raise e -> builtin e = true.
Proof.
  unfold float_arg. intros H.
  apply bind_Raise in H as [H|(tok & _ & H)];
    apply from_option_Raise in H as ->; done.
Qed.

Lemma key_value_raises (h : header num) parts e :
  key_value h parts = Raise e -> builtin e = true.
Proof.
  unfold key_value. destruct parts as [|key ps]; [by intros [= <-]|].
  destruct (area h) as [[[s n] w] e0].
  repeat match goal with
  | |- context [if ?b then _ else _] => destruct b
  end;
  intros H; try discriminate;
  apply bind_Raise in H as [H|(x & _ & H)]; try discriminate;
  eauto using int_arg_raises, float_arg_raises.
Qed.

Lemma header_line_raises (h : header num) l e :
  header_line h l = Raise e -> builtin e = true.
Proof.
  unfold header_line. destruct (is_blank l); [discriminate|].
  destruct (negb _); [apply key_value_raises | discriminate].
Qed.

Lemma read_header_raises (h : header num) lines e :
  read_header h lines = Raise e -> builtin e = true.
Proof.
  revert h. induction lines as [|l r IH]; intros h; simpl; [discriminate|].
  destruct (is_end_of_head l); [discriminate|].
  intros H. apply bind_Raise in H as [H|(h' & _ & H)];
    eauto using header_line_raises.
Qed.

Lemma parse_row_raises toks (e : exn num) :
  parse_row toks = Raise e -> builtin e = true.
Proof.
  induction toks as [|tok toks IH]; simpl; [discriminate|].
  intros H. apply bind_Raise in H as [H|(x & _ & H)].
  - by apply from_option_Raise in H as ->.
  - apply bind_Raise in H as [H|(xs & _ & H)]; [eauto | discriminate].
Qed.

Lemma loadtxt_rows_raises ncols lines (e : exn num) :
  loadtxt_rows ncols lines = Raise e -> builtin e = true.
Proof.
  revert ncols. induction lines as [|l r IH]; intros ncols; simpl; [discriminate|].
  destruct (split (strip_comment l)) as [|tok toks]; [apply IH|].
  intros H. apply bind_Raise in H as [H|(row & _ & H)];
    [exact (parse_row_raises (tok :: toks) _ H)|].
  destruct (match ncols with None => true | Some n => Nat.eqb (length row) n end).
  - apply bind_Raise in H as [H|(rows & _ & H)]; [eauto | discriminate].
  - by injection H as <-.
Qed.

Lemma loadtxt_raises lines (e : exn num) :
  loadtxt lines = Raise e -> builtin e = true.
Proof.
  unfold loadtxt. intros H.
  apply bind_Raise in H as [H|(rows & _ & H)];
    [exact (loadtxt_rows_raises _ _ _ H) | discriminate].
Qed.

Lemma flip_latitude_raises (sh : shape_t) (v : list num) e :
  flip_latitude sh v = Raise e -> builtin e = true.
Proof.
  unfold flip_latitude, reshape. intros H.
  apply bind_Raise in H as [H|(rows & _ & H)]; [|discriminate].
  destruct sh as [[n0|] [n1|]]; try by injection H as <-.
  - apply bind_Raise in H as [H|([a b] & _ & H)]; [|discriminate].
    by apply from_option_Raise in H as ->.
  - destruct (fits_index n0); by injection H as <-.
Qed.

Lemma store_columns_raises (sh : shape_t) cols (data : gmap string (value num)) e :
  store_columns sh cols data = Raise e -> builtin e = true.
Proof.
  revert data. induction cols as [|[attr v] cols IH]; intros data; simpl;
    [discriminate|].
  intros H. apply bind_Raise in H as [H|(col & _ & H)];
    eauto using flip_latitude_raises.
Qed.

Lemma package_raises (h : header num) rawdata e :
  package h rawdata = Raise e -> builtin e = true.
Proof.
  unfold package. intros H.
  apply bind_Raise in H as [H|(attrs & _ & H)];
    [by apply from_option_Raise in H as ->|].
  apply bind_Raise in H as [H|(data & _ & H)];
    [exact (store_columns_raises _ _ _ _ H)|].
  destruct (height h) as [x|]; [|discriminate].
  apply bind_Raise in H as [H|(col & _ & H)]; [|discriminate].
  unfold height_column in H. destruct (size h) as [n|]; [|by injection H as <-].
  destruct (_ || _); [by injection H as <- | discriminate].
Qed.

Lemma builtin_by_line_85 (e : exn num) :
  builtin e = true -> raised_by_line_85 e = true.
Proof. by destruct e. Qed.

(** As written, the reader raises nothing that lines 86 to 95 raise: neither
    the mismatch of attributes and data columns, nor the unread area, nor
    the area mismatch. *)
Lemma unbound_usecols_raises_by_line_85 text (e : exn num) :
  load_icgem_gdf Unbound text = Raise e -> raised_by_line_85 e = true.
Proof.
  unfold load_icgem_gdf, load_lines. intros H.
  apply bind_Raise in H as [H|([h rest] & _ & H)];
    [exact (builtin_by_line_85 _ (read_header_raises _ _ _ H))|].
  apply bind_Raise in H as [H|(rawdata & _ & H)];
    [exact (builtin_by_line_85 _ (loadtxt_raises _ _ H))|].
  apply bind_Raise in H as [H|(data & _ & H)];
    [exact (builtin_by_line_85 _ (package_raises _ _ _ H))|].
  unfold sanity_checks in H.
  destruct (shape h) as [[n0|] [n1|]]; try by injection H as <-.
  destruct (size h) as [sz|]; [|by injection H as <-].
  apply bind_Raise in H as [H|(u & _ & H)].
  { unfold assert in H. destruct (n0 * n1 =? sz); [discriminate|].
    by injection H as <-. }
  apply bind_Raise in H as [H|(attrs & _ & H)];
    [by apply from_option_Raise in H as ->|].
  apply bind_Raise in H as [H|(attrs' & H' & _)]; [|discriminate].
  by injection H as <-.
Qed.

End Raised.

(** * Further properties of the reader *)

(** ** The reader as written *)

(** X1. As written ([usecols] bound nowhere) the reader returns a record on
    no input: every call raises, and what it raises is raised by line 85 at
    the latest, so the comparisons of lines 86 to 95 are never the cause. *)
Theorem reader_as_written_always_raises {num : Type} {N : Numeric num} (text : string) :
  exists e : exn num,
    load_icgem_gdf Unbound text = Raise e /\ raised_by_line_85 e = true.
Proof.
  destruct (load_icgem_gdf Unbound text) as [d|e] eqn:E.
  - pose proof (unbound_usecols_never_returns text) as Hnone.
    rewrite E in Hnone. discriminate.
  - exists e. split; [done|]. by apply (unbound_usecols_raises_by_line_85 text).
Qed.

(** ** Key/value lines *)

Section KeyValueLines.

Context {num : Type} {N : Numeric num}.

Lemma split_aux_nonempty s c cur : split_aux s (c :: cur) <> [].
Proof.
  revert c cur. induction s as [|d r IH]; intros c cur; simpl; [done|].
  destruct (is_space d); [done | apply IH].
Qed.

Lemma lstrip_head s c r : lstrip s = String c r -> is_space c = false.
Proof.
  induction s as [|d s IH]; simpl; [done|].
  destruct (is_space d) eqn:Hd; [done|]. by intros [= <- <-].
Qed.

Lemma rstrip_head c r :
  is_space c = false -> exists r', rstrip (String c r) = String c r'.
Proof.
  intros Hc. simpl. destruct (rstrip r) as [|d r'].
  - rewrite Hc. by exists EmptyString.
  - by exists (String d r').
Qed.

(** A line that is not blank has a first token. *)
Lemma split_strip_nonempty l : is_blank l = false -> split (strip l) <> [].
Proof.
  unfold is_blank, strip. intros Hblank.
  destruct (lstrip l) as [|c r] eqn:Hl; [done|].
  destruct (rstrip_head c r (lstrip_head _ _ _ Hl)) as [r' ->].
  unfold split. simpl. rewrite (lstrip_head _ _ _ Hl). apply split_aux_nonempty.
Qed.

Lemma declares_false key l first more :
  split (strip l) = first :: more ->
  declares key l = false -> String.eqb first key = false.
Proof. unfold declares. by intros ->. Qed.

End KeyValueLines.

(** X2. Outside the attribute mode, a line whose first token is none of the
    eight recognised keys is only appended to the header text: nothing else
    of the header changes and nothing is raised, however many tokens the
    line has. *)
Theorem unrecognised_key_is_ignored {num : Type} {N : Numeric num}
    (h : header num) (l : string) :
  is_blank l = false ->
  attr_line h = false ->
  Forall (fun key => declares key l = false) recognised_keys ->
  header_line h l = Return (append_metadata h l).
Proof.
  intros Hblank Hmode Hkeys.
  rewrite header_line_key_value by done.
  destruct (split (strip l)) as [|first more] eqn:Hparts;
    [by apply split_strip_nonempty in Hblank|].
  unfold key_value. unfold recognised_keys in Hkeys.
  repeat match goal with
  | H : Forall _ (_ :: _) |- _ =>
      let Hk := fresh "Hk" in
      apply Forall_cons in H as [Hk H];
      apply (declares_false _ _ _ _ Hparts) in Hk; rewrite Hk
  end.
  reflexivity.
Qed.

Lemma unrecognised_key_is_ignored_witness :
  header_line (init (num := Z)) "  [deg.]   [deg.]  [mgal] "
    = Return (append_metadata init "  [deg.]   [deg.]  [mgal] ").
Proof.
  apply (unrecognised_key_is_ignored (N := IntNum));
    [reflexivity | reflexivity | repeat constructor].
Defined.

Section HeaderErrors.

Context {num : Type} {N : Numeric num}.

Lemma blank_split l : is_blank l = true -> split (strip l) = [].
Proof. unfold is_blank. intros H. apply String.eqb_eq in H. by rewrite H. Qed.

Lemma not_blank_of_split l first more :
  split (strip l) = first :: more -> is_blank l = false.
Proof.
  intros Hparts. destruct (is_blank l) eqn:Hb; [|done].
  apply blank_split in Hb. congruence.
Qed.

(** An exception of the loop body is the exception of the read. *)
Lemma header_line_error_aborts_read usecols text pre l post (h : header num) e :
  readlines text = pre ++ l :: post ->
  Forall (fun x => is_end_of_head x = false) pre ->
  run_lines init pre = Return h ->
  is_end_of_head l = false ->
  header_line h l = Raise e ->
  load_icgem_gdf usecols text = Raise e.
Proof.
  intros Hlines Hpre Hrun Hl He.
  unfold load_icgem_gdf, load_lines. rewrite Hlines.
  rewrite read_header_app by done. rewrite Hrun. simpl.
  rewrite Hl, He. reflexivity.
Qed.

End HeaderErrors.

(** X3. A key/value line that consists of a recognised key alone aborts
    the read with IndexError ([parts[1]] does not exist), whatever follows
    in the file. *)
Theorem key_without_value_raises_IndexError {num : Type} {N : Numeric num}
    (usecols : binding) (text : string) (pre post : list string) (l key : string)
    (h : header num) :
  readlines text = pre ++ l :: post ->
  Forall (fun x => is_end_of_head x = false) pre ->
  run_lines init pre = Return h ->
  attr_line h = false ->
  is_end_of_head l = false ->
  split (strip l) = [key] ->
  key ∈ recognised_keys ->
  load_icgem_gdf usecols text = Raise IndexError.
Proof.
  intros Hlines Hpre Hrun Hmode Hl Hparts Hkey.
  apply (header_line_error_aborts_read usecols text pre l post h); try done.
  rewrite header_line_key_value by eauto using not_blank_of_split.
  rewrite Hparts. unfold recognised_keys in Hkey.
  repeat (apply elem_of_cons in Hkey as [->|Hkey]; [reflexivity|]).
  by apply elem_of_nil in Hkey.
Qed.

Lemma key_without_value_raises_IndexError_witness :
  load_icgem_gdf (N := IntNum) (Bound None) (text_of value_omitted) = Raise IndexError.
Proof.
  apply (key_without_value_raises_IndexError (N := IntNum) (Bound None)
           (text_of value_omitted) [line "latitude_parallels 2"]
           (line <$> drop 2 minimal_header ++ minimal_points)
           (line "longitude_parallels") "longitude_parallels"
           (set_shape0 (append_metadata init (line "latitude_parallels 2")) 2)).
  - vm_compute. reflexivity.
  - repeat constructor.
  - vm_compute. reflexivity.
  - reflexivity.
  - reflexivity.
  - reflexivity.
  - unfold recognised_keys. set_solver.
Defined.

(** X4. A key/value line whose key is read with [int] (the two shape
    dimensions, the size) and whose second token is no integer literal, or
    whose key is read with [float] and whose second token [float] rejects,
    aborts the read with ValueError. *)
Theorem rejected_value_raises_ValueError {num : Type} {N : Numeric num}
    (usecols : binding) (text : string) (pre post more : list string)
    (l key tok : string) (h : header num) :
  readlines text = pre ++ l :: post ->
  Forall (fun x => is_end_of_head x = false) pre ->
  run_lines init pre = Return h ->
  attr_line h = false ->
  is_end_of_head l = false ->
  split (strip l) = key :: tok :: more ->
  (key ∈ int_keys /\ parse_int tok = None) \/
  (key ∈ float_keys /\ parse_float tok = None) ->
  load_icgem_gdf usecols text = Raise ValueError.
Proof.
  intros Hlines Hpre Hrun Hmode Hl Hparts Hkey.
  apply (header_line_error_aborts_read usecols text pre l post h); try done.
  rewrite header_line_key_value by eauto using not_blank_of_split.
  rewrite Hparts. unfold key_value, int_arg, float_arg.
  destruct (area (append_metadata h l)) as [[[s n] w] e].
  destruct Hkey as [[Hkey Htok]|[Hkey Htok]].
  - unfold int_keys in Hkey.
    repeat (apply elem_of_cons in Hkey as [->|Hkey]; [simpl; by rewrite Htok|]).
    by apply elem_of_nil in Hkey.
  - unfold float_keys in Hkey.
    repeat (apply elem_of_cons in Hkey as [->|Hkey]; [simpl; by rewrite Htok|]).
    by apply elem_of_nil in Hkey.
Qed.

Lemma rejected_value_raises_ValueError_witness :
  load_icgem_gdf (N := IntNum) (Bound None) (text_of count_with_point) = Raise ValueError.
Proof.
  apply (rejected_value_raises_ValueError (N := IntNum) (Bound None)
           (text_of count_with_point) [line "latitude_parallels 2"]
           (line <$> drop 2 minimal_header ++ minimal_points) []
           (line "longitude_parallels 2.0") "longitude_parallels" "2.0"
           (set_shape0 (append_metadata init (line "latitude_parallels 2")) 2)).
  - vm_compute. reflexivity.
  - repeat constructor.
  - vm_compute. reflexivity.
  - reflexivity.
  - reflexivity.
  - reflexivity.
  - left. split; [unfold int_keys; set_solver | reflexivity].
Defined.

(** ** Required keys *)

Section RequiredKeys.

Context {num : Type} {N : Numeric num}.

(** A key/value line of another key leaves the value of [key] as it is. *)
Lemma key_value_known key (h h' : header num) parts :
  match parts with
  | first :: _ => String.eqb first key = false
  | [] => True
  end ->
  key_value h parts = Return h' -> known key h' = known key h.
Proof.
  unfold key_value. destruct parts as [|first ps]; [discriminate|]. intros Hne.
  rewrite String.eqb_sym in Hne.
  destruct (area h) as [[[s n] w] e] eqn:Harea.
  repeat match goal with
  | |- context [if String.eqb first ?lit then _ else _] =>
      destruct (String.eqb_spec first lit) as [->|_]
  end;
  intros H; try (apply bind_Return in H as (x & _ & H)); injection H as <-;
  unfold known; simpl; rewrite ?Harea; simpl; rewrite ?Hne; reflexivity.
Qed.

Lemma header_line_known key (h h' : header num) l :
  declares key l = false ->
  header_line h l = Return h' -> known key h' = known key h.
Proof.
  unfold declares, header_line. intros Hkey.
  destruct (is_blank l); [by intros [= <-]|].
  destruct (negb _).
  - intros H. apply (key_value_known key) in H; [done|].
    by destruct (split (strip l)).
  - by intros [= <-].
Qed.

Lemma read_header_known key (h h' : header num) lines rest :
  Forall (fun l => declares key l = false) (header_lines lines) ->
  read_header h lines = Return (h', rest) -> known key h' = known key h.
Proof.
  revert h. induction lines as [|l r IH]; intros h; simpl.
  - by intros _ [= <- _].
  - destruct (is_end_of_head l).
    + by intros _ [= <- _].
    + intros Hall H. apply Forall_cons in Hall as [Hl Hr].
      apply bind_Return in H as (h1 & Hh1 & H).
      rewrite (IH _ Hr H). by apply (header_line_known key h h1 l).
Qed.

End RequiredKeys.

(** X5. Each of the seven keys of the shape, the size and the area is
    required: when no line of the header begins with one of them, no record
    is returned, whatever [usecols] is bound to. *)
Theorem missing_required_key_never_returns {num : Type} {N : Numeric num}
    (usecols : binding) (text key : string) :
  key ∈ required_keys ->
  Forall (fun l => declares key l = false) (header_lines (readlines text)) ->
  returns (load_icgem_gdf usecols text) = false.
Proof.
  intros Hkey Hlines. unfold load_icgem_gdf.
  destruct (load_lines usecols (readlines text)) as [d|e] eqn:E; [|done].
  apply load_lines_Return in E as (h & rest & rawdata & Hh & _ & _ & Hs).
  apply sanity_checks_Return in Hs
    as (_ & n0 & n1 & _ & _ & Hshape & Hsize & _ & _ & _ & Harea & _).
  pose proof (read_header_known key _ _ _ _ Hlines Hh) as Hknown.
  exfalso. revert Hknown. unfold known. rewrite Hshape, Hsize. simpl.
  destruct (area h) as [[[[s|] [n|]] [w|]] [e|]]; try discriminate.
  unfold required_keys in Hkey.
  repeat (apply elem_of_cons in Hkey as [->|Hkey]; [discriminate|]).
  by apply elem_of_nil in Hkey.
Qed.

Lemma missing_required_key_never_returns_witness :
  returns (load_icgem_gdf (N := IntNum) (Bound None) (text_of south_omitted)) = false.
Proof.
  apply (missing_required_key_never_returns (N := IntNum) (Bound None)
           (text_of south_omitted) "latlimit_south").
  - unfold required_keys. set_solver.
  - repeat constructor.
Defined.

(** ** The assertions that come too late *)

Section LateAssertions.

Context {num : Type} {N : Numeric num}.

Lemma select_raises attrs idx (e : exn num) :
  select attrs idx = Raise e -> e = IndexError.
Proof.
  induction idx as [|i idx IH]; simpl; [discriminate|].
  intros H. apply bind_Raise in H as [H|(x & _ & H)].
  - unfold py_index in H.
    repeat match type of H with
    | (if ?b then _ else _) = _ => destruct b
    end;
    first [by apply from_option_Raise in H | by injection H].
  - apply bind_Raise in H as [H|(xs & _ & H)]; [by apply IH | discriminate].
Qed.

Lemma array_min_raises (a : list num) e : array_min a = Raise e -> e = ValueError.
Proof. destruct a; [by intros [= <-] | discriminate]. Qed.

Lemma array_max_raises (a : list num) e : array_max a = Raise e -> e = ValueError.
Proof. destruct a; [by intros [= <-] | discriminate]. Qed.

Lemma get_array_raises (data : gmap string (value num)) key e :
  get_array data key = Raise e -> raised_by_area_check e = true.
Proof.
  unfold get_array. destruct (data !! key) as [[]|]; try discriminate;
    by intros [= <-].
Qed.

Lemma allclose_raises c (declared : option (value num)) e :
  allclose c declared = Raise e -> raised_by_area_check e = true.
Proof.
  unfold allclose. repeat case_match; try discriminate; by intros [= <-].
Qed.

Lemma check_area_raises attrs (data : gmap string (value num)) e :
  check_area attrs data = Raise e -> raised_by_area_check e = true.
Proof.
  unfold check_area. destruct (mem "latitude" attrs && mem "longitude" attrs);
    [|discriminate].
  intros H.
  apply bind_Raise in H as [H|(lat & _ & H)]; [by eapply get_array_raises|].
  apply bind_Raise in H as [H|(lon & _ & H)]; [by eapply get_array_raises|].
  apply bind_Raise in H as [H|(c0 & _ & H)]; [by apply array_min_raises in H as ->|].
  apply bind_Raise in H as [H|(c1 & _ & H)]; [by apply array_max_raises in H as ->|].
  apply bind_Raise in H as [H|(c2 & _ & H)]; [by apply array_min_raises in H as ->|].
  apply bind_Raise in H as [H|(c3 & _ & H)]; [by apply array_max_raises in H as ->|].
  apply bind_Raise in H as [H|(ok & _ & H)]; [by eapply allclose_raises|].
  destruct (data !! "area") as [declared|]; [|by injection H as <-].
  unfold assert in H. destruct ok; [discriminate | by injection H as <-].
Qed.

(** The attribute names, once set, are at least one. *)
Lemma header_line_attributes_nonempty (h h' : header num) l :
  (forall a, attributes h = Some a -> a <> []) ->
  header_line h l = Return h' ->
  forall a, attributes h' = Some a -> a <> [].
Proof.
  unfold header_line. intros Hinv.
  destruct (is_blank l) eqn:Hb; [by intros [= <-]|].
  destruct (negb _).
  - intros H. apply key_value_frame in H as (_ & -> & _). done.
  - intros [= <-] a [= <-]. by apply split_strip_nonempty.
Qed.

Lemma read_header_attributes_nonempty (h h' : header num) lines rest :
  (forall a, attributes h = Some a -> a <> []) ->
  read_header h lines = Return (h', rest) ->
  forall a, attributes h' = Some a -> a <> [].
Proof.
  revert h. induction lines as [|l r IH]; intros h Hinv; simpl.
  - by intros [= <- _].
  - destruct (is_end_of_head l); [by intros [= <- _]|].
    intros H. apply bind_Return in H as (h1 & Hh1 & H).
    eapply IH; [|done]. by eapply header_line_attributes_nonempty.
Qed.

(** A header without a blank line sets no attribute names. *)
Lemma no_blank_line_no_attributes (h : header num) lines rest :
  Forall (fun l => is_blank l = false) (header_lines lines) ->
  read_header init lines = Return (h, rest) ->
  attributes h = None.
Proof.
  intros Hblank Hh.
  assert (Hpost : Forall (fun l => is_blank l = false /\ is_end_of_head l = false)
                    (header_lines lines)).
  { pose proof (header_lines_not_end lines) as Hend.
    rewrite Forall_forall in Hblank, Hend. apply Forall_forall. by split; auto. }
  destruct (header_body_lines lines) as [[Heq _]|(t & Ht & Heq)].
  - rewrite Heq, <- (app_nil_r (header_lines lines)) in Hh.
    by apply read_header_key_values in Hh as [-> _].
  - rewrite Heq in Hh.
    apply read_header_key_values in Hh as [-> _]; try done.
    simpl. by rewrite Ht.
Qed.

Lemma parse_row_length toks (row : list num) :
  parse_row toks = Return row -> length row = length toks.
Proof.
  revert row. induction toks as [|tok toks IH]; intros row; simpl.
  - by intros [= <-].
  - intros H. apply bind_Return in H as (x & _ & H).
    apply bind_Return in H as (xs & Hxs & H). injection H as <-.
    simpl. by rewrite (IH _ Hxs).
Qed.

(** [loadtxt] keeps no empty row. *)
Lemma loadtxt_rows_nonempty ncols lines (rows : list (list num)) :
  loadtxt_rows ncols lines = Return rows -> Forall (fun r => r <> []) rows.
Proof.
  revert ncols rows. induction lines as [|l r IH]; intros ncols rows; simpl.
  - intros [= <-]. constructor.
  - destruct (split (strip_comment l)) as [|tok toks] eqn:Htoks; [apply IH|].
    intros H. apply bind_Return in H as (row & Hrow & H).
    destruct (match ncols with None => true | Some n => Nat.eqb (length row) n end);
      [|discriminate].
    apply bind_Return in H as (rows' & Hrows' & H). injection H as <-.
    constructor; [|by eapply IH].
    apply (parse_row_length (tok :: toks)) in Hrow. by destruct row.
Qed.

Lemma transpose_nonempty (row : list num) rows :
  row <> [] -> exists c cs, transpose (row :: rows) = c :: cs.
Proof. destruct row as [|x row]; [done|]. intros _. simpl. eauto. Qed.

Lemma store_columns_missing_dimension (sh : shape_t) attr v cols
    (data : gmap string (value num)) :
  fst sh = None \/ snd sh = None ->
  store_columns sh ((attr, v) :: cols) data = Raise (missing_dimension_error sh).
Proof.
  simpl. unfold flip_latitude, reshape, missing_dimension_error.
  destruct sh as [[n0|] [n1|]]; simpl; intros [H|H]; try discriminate;
    try done; by destruct (fits_index n0).
Qed.

End LateAssertions.

(** X6. When the header has no blank line, and so no attribute line, and
    the header and the body are read without error, the read raises the
    TypeError of [zip(None, rawdata)] at line 69. *)
Theorem missing_attribute_line_raises_TypeError {num : Type} {N : Numeric num}
    (usecols : binding) (text : string) (h : header num)
    (rest : list string) (rawdata : list (list num)) :
  Forall (fun l => is_blank l = false) (header_lines (readlines text)) ->
  read_header init (readlines text) = Return (h, rest) ->
  loadtxt rest = Return rawdata ->
  load_icgem_gdf usecols text = Raise TypeError.
Proof.
  intros Hblank Hh Hr.
  pose proof (no_blank_line_no_attributes _ _ _ Hblank Hh) as Hattrs.
  unfold load_icgem_gdf, load_lines.
  rewrite (bind_of_Return _ _ _ Hh). simpl.
  rewrite (bind_of_Return _ _ _ Hr).
  unfold package. by rewrite Hattrs.
Qed.

Lemma missing_attribute_line_raises_TypeError_witness :
  load_icgem_gdf (N := IntNum) (Bound None) (text_of attributes_omitted) = Raise TypeError.
Proof.
  eapply (missing_attribute_line_raises_TypeError (N := IntNum) (Bound None)
            (text_of attributes_omitted));
    [repeat constructor | vm_compute; reflexivity | vm_compute; reflexivity].
Defined.

(** X7. For no input and no binding of [usecols] does the read raise the
    assertion "Couldn't read column names." of line 83: when the names are
    missing, line 69 has raised before. *)
Theorem column_names_assertion_never_raised {num : Type} {N : Numeric num}
    (usecols : binding) (text : string) :
  load_icgem_gdf usecols text <> Raise (AssertionError CouldntReadColumnNames).
Proof.
  unfold load_icgem_gdf, load_lines. intros H.
  apply bind_Raise in H as [H|([h rest] & _ & H)];
    [by apply read_header_raises in H|].
  apply bind_Raise in H as [H|(rawdata & _ & H)];
    [by apply loadtxt_raises in H|].
  apply bind_Raise in H as [H|(data & Hp & H)];
    [by apply package_raises in H|].
  apply package_Return in Hp as (attrs & _ & Hattrs & _).
  unfold sanity_checks in H. rewrite Hattrs in H.
  destruct (shape h) as [[n0|] [n1|]]; try discriminate.
  destruct (size h) as [sz|]; [|discriminate].
  apply bind_Raise in H as [H|(u1 & _ & H)].
  { unfold assert in H. by destruct (n0 * n1 =? sz). }
  simpl in H.
  apply bind_Raise in H as [H|(attrs' & _ & H)].
  { destruct usecols as [|[idx|]]; try discriminate.
    by apply select_raises in H. }
  apply bind_Raise in H as [H|(u2 & _ & H)].
  { unfold assert in H. by destruct (Nat.eqb _ _). }
  apply bind_Raise in H as [H|(u3 & _ & H)].
  { unfold assert in H. by destruct (all_known _). }
  apply bind_Raise in H as [H|(u4 & _ & H)]; [|discriminate].
  by apply check_area_raises in H.
Qed.

(** X8. When no line of the header begins with [latitude_parallels] (or
    with [longitude_parallels]), the attribute names are set and the body
    has a data line, the read fails in the reshape of line 73, not with
    the assertion "Couldn't read shape of grid." of line 78.  The error is
    the TypeError of the missing dimension, unless the first dimension is
    given and lies outside the range of the index type: converting it
    raises ValueError before the missing second dimension is looked at. *)
Theorem missing_shape_raises_at_reshape {num : Type} {N : Numeric num}
    (usecols : binding) (text key : string) (h : header num)
    (rest attrs : list string) (row : list num) (rows : list (list num)) :
  key ∈ ["latitude_parallels"; "longitude_parallels"] ->
  Forall (fun l => declares key l = false) (header_lines (readlines text)) ->
  read_header init (readlines text) = Return (h, rest) ->
  attributes h = Some attrs ->
  loadtxt_rows None rest = Return (row :: rows) ->
  (fst (shape h) = None \/ snd (shape h) = None) /\
  (key = "latitude_parallels" -> fst (shape h) = None) /\
  load_icgem_gdf usecols text = Raise (missing_dimension_error (shape h)).
Proof.
  intros Hkey Hlines Hh Hattrs Hrows.
  pose proof (read_header_known key _ _ _ _ Hlines Hh) as Hknown.
  assert (Hshape : (fst (shape h) = None \/ snd (shape h) = None) /\
                   (key = "latitude_parallels" -> fst (shape h) = None)).
  { revert Hknown. unfold known.
    destruct (area h) as [[[s n] w] e], (area init) as [[[s' n'] w'] e'].
    repeat (apply elem_of_cons in Hkey as [->|Hkey];
      [simpl; destruct (shape h) as [[?|] [?|]]; simpl; intros Hk;
       (split; [auto|]); try discriminate; done|]).
    by apply elem_of_nil in Hkey. }
  destruct Hshape as [Hshape Hfirst].
  split; [done|]. split; [done|].
  assert (Hne : attrs <> []).
  { by apply (read_header_attributes_nonempty init h _ _ ltac:(done) Hh). }
  pose proof (loadtxt_rows_nonempty _ _ _ Hrows) as Hrow.
  apply Forall_cons in Hrow as [Hrow _].
  assert (Hload : loadtxt rest = Return (transpose (row :: rows))).
  { unfold loadtxt. by rewrite (bind_of_Return _ _ _ Hrows). }
  destruct (transpose_nonempty row rows Hrow) as (c & cs & Hc).
  rewrite Hc in Hload.
  unfold load_icgem_gdf, load_lines.
  rewrite (bind_of_Return _ _ _ Hh). simpl.
  rewrite (bind_of_Return _ _ _ Hload).
  destruct attrs as [|attr attrs]; [done|].
  unfold package. rewrite Hattrs.
  change (zip (attr :: attrs) (c :: cs)) with ((attr, c) :: zip attrs cs).
  change (from_option TypeError (Some (attr :: attrs))) with
    (Return (E := exn num) (attr :: attrs)).
  rewrite (bind_of_Return _ _ (attr :: attrs) eq_refl).
  change (zip (attr :: attrs) (c :: cs)) with ((attr, c) :: zip attrs cs).
  by rewrite store_columns_missing_dimension.
Qed.

Lemma missing_shape_raises_at_reshape_witness :
  load_icgem_gdf (N := IntNum) (Bound None) (text_of latitude_parallels_omitted)
    = Raise TypeError /\
  load_icgem_gdf (N := IntNum) (Bound None) (text_of longitude_parallels_omitted)
    = Raise TypeError /\
  load_icgem_gdf (N := IntNum) (Bound None) (text_of longitude_parallels_omitted_wide)
    = Raise ValueError.
Proof.
  split; [|split].
  - etrans;
      [eapply (missing_shape_raises_at_reshape (N := IntNum) (Bound None)
                 (text_of latitude_parallels_omitted) "latitude_parallels");
       [set_solver | repeat constructor | vm_compute; reflexivity
       | reflexivity | vm_compute; reflexivity]
      | reflexivity].
  - etrans;
      [eapply (missing_shape_raises_at_reshape (N := IntNum) (Bound None)
                 (text_of longitude_parallels_omitted) "longitude_parallels");
       [set_solver | repeat constructor | vm_compute; reflexivity
       | reflexivity | vm_compute; reflexivity]
      | reflexivity].
  - etrans;
      [eapply (missing_shape_raises_at_reshape (N := IntNum) (Bound None)
                 (text_of longitude_parallels_omitted_wide) "longitude_parallels");
       [set_solver | repeat constructor | vm_compute; reflexivity
       | reflexivity | vm_compute; reflexivity]
      | reflexivity].
Defined.

(** ** The returned record *)

Set Warnings "-clear-no-such-hyp".

Section RecordShape.

Context {num : Type} {N : Numeric num}.

Local Open Scope nat_scope.

Lemma length_concat_rows (b : nat) (rs : list (list num)) :
  Forall (fun r => length r = b) rs -> length (concat rs) = length rs * b.
Proof.
  induction 1 as [|r rs Hr _ IH]; simpl; [done|].
  rewrite length_app, IH, Hr. lia.
Qed.

Lemma length_flipped (a b : nat) (v : list num) :
  length v = a * b -> length (concat (reverse (rows_of a b v))) = a * b.
Proof.
  intros Hlen. rewrite (length_concat_rows b).
  - by rewrite length_reverse, rows_of_length.
  - apply Forall_reverse. by apply rows_of_row_length.
Qed.

Lemma rows_of_succ (a b : nat) (v : list num) :
  rows_of (S a) b v = take b v :: rows_of a b (drop b v).
Proof.
  unfold rows_of. simpl. f_equal.
  rewrite <- fmap_S_seq, <- list_fmap_compose. apply list_fmap_ext.
  intros j i _. simpl. by rewrite drop_drop.
Qed.

(** Cutting into rows and joining the rows gives the array back. *)
Lemma concat_rows_of (a b : nat) (v : list num) :
  length v = a * b -> concat (rows_of a b v) = v.
Proof.
  revert v. induction a as [|a IH]; intros v Hlen.
  - by destruct v.
  - rewrite rows_of_succ. simpl. rewrite IH.
    + apply take_drop.
    + rewrite length_drop. lia.
Qed.

Lemma rows_of_concat (a b : nat) (rs : list (list num)) :
  Forall (fun r => length r = b) rs -> length rs = a ->
  rows_of a b (concat rs) = rs.
Proof.
  intros Hall Hlen. apply list_eq. intros i.
  destruct (decide (i < a)) as [Hi|Hi].
  - rewrite rows_of_lookup by done.
    destruct (lookup_lt_is_Some_2 rs i ltac:(lia)) as [r Hr].
    rewrite Hr. f_equal. by apply concat_grid_row.
  - rewrite !lookup_ge_None_2; [done | lia | rewrite rows_of_length; lia].
Qed.

Lemma concat_reverse_Permutation (rs : list (list num)) :
  concat (reverse rs) ≡ₚ concat rs.
Proof.
  induction rs as [|r rs IH]; [done|].
  rewrite reverse_cons, concat_app. simpl. rewrite app_nil_r, IH.
  apply Permutation_app_comm.
Qed.

Lemma header_entries_not_array (h : header num) key col :
  header_entries h !! key <> Some (VArray col).
Proof.
  unfold header_entries. rewrite !lookup_insert.
  repeat case_decide; try discriminate.
Qed.

Lemma store_columns_dom (sh : shape_t) cols (data d : gmap string (value num)) :
  store_columns sh cols data = Return d ->
  dom d = dom data ∪ list_to_set cols.*1.
Proof.
  revert data. induction cols as [|[attr v] cols IH]; intros data; simpl.
  - intros [= <-]. set_solver.
  - intros H. apply bind_Return in H as (col & _ & H).
    rewrite (IH _ H), dom_insert_L. set_solver.
Qed.

Lemma header_entries_dom (h : header num) :
  dom (header_entries h) = {["shape"; "area"; "metadata"]}.
Proof.
  unfold header_entries. rewrite !dom_insert_L, dom_empty_L. set_solver.
Qed.

End RecordShape.

(** X9. The binding of [usecols] has no part in what is returned: two
    reads of the same file that return, under whatever bindings, return the
    same dictionary.  Line 85 selects among the names only after the
    columns are stored, and only for the checks. *)
Theorem usecols_does_not_change_record {num : Type} {N : Numeric num}
    (usecols1 usecols2 : binding) (text : string) (d1 d2 : gmap string (value num)) :
  load_icgem_gdf usecols1 text = Return d1 ->
  load_icgem_gdf usecols2 text = Return d2 ->
  d1 = d2.
Proof.
  unfold load_icgem_gdf. intros E1 E2.
  apply load_lines_Return in E1 as (h1 & rest1 & raw1 & Hh1 & Hr1 & Hp1 & _).
  apply load_lines_Return in E2 as (h2 & rest2 & raw2 & Hh2 & Hr2 & Hp2 & _).
  rewrite Hh1 in Hh2. injection Hh2 as <- <-.
  rewrite Hr1 in Hr2. injection Hr2 as <-.
  rewrite Hp1 in Hp2. by injection Hp2.
Qed.

Lemma usecols_does_not_change_record_witness :
  exists d : gmap string (value Z),
    load_icgem_gdf (Bound None) (text_of (minimal_header ++ minimal_points)) = Return d /\
    load_icgem_gdf (Bound (Some [2; 0; -2]))
      (text_of (minimal_header ++ minimal_points)) = Return d.
Proof.
  assert (H1 : returns (load_icgem_gdf (N := IntNum) (Bound None)
                 (text_of (minimal_header ++ minimal_points))) = true)
    by (vm_compute; reflexivity).
  assert (H2 : returns (load_icgem_gdf (N := IntNum) (Bound (Some [2; 0; -2]))
                 (text_of (minimal_header ++ minimal_points))) = true)
    by (vm_compute; reflexivity).
  destruct (returns_Return _ H1) as [d1 E1].
  destruct (returns_Return _ H2) as [d2 E2].
  exists d1. split; [exact E1|].
  rewrite (usecols_does_not_change_record _ _ _ _ _ E1 E2). exact E2.
Defined.

(** X10. In a returned record whose two shape dimensions are not negative,
    every array (each attribute column and the height column) has
    shape[0] * shape[1] elements, which is the declared size. *)
Theorem returned_columns_have_grid_size {num : Type} {N : Numeric num}
    (usecols : binding) (text : string) (d : gmap string (value num)) :
  load_icgem_gdf usecols text = Return d ->
  exists (h : header num) rest n0 n1,
    read_header init (readlines text) = Return (h, rest) /\
    shape h = (Some n0, Some n1) /\
    size h = Some (n0 * n1) /\
    (0 <= n0 -> 0 <= n1 ->
     forall key col, d !! key = Some (VArray col) ->
       Z.of_nat (length col) = n0 * n1).
Proof.
  intros E.
  apply load_Return in E
    as (h & rest & rawdata & attrs & attrs' & data & n0 & n1
        & Hh & _ & _ & Hshape & Hsize & Hstore & Hheight & _).
  exists h, rest, n0, n1. repeat (split; [done|]).
  intros Hn0 Hn1 key col Hcol.
  assert (Hdata : forall col', data !! key = Some (VArray col') ->
            Z.of_nat (length col') = n0 * n1).
  { intros col' Hcol'.
    destruct (decide (key ∈ (zip attrs rawdata).*1)) as [Hin|Hout].
    - destruct (store_columns_stored _ _ _ _ _ Hstore Hin)
        as (i & v & c & _ & Hflip & Hc).
      rewrite Hc in Hcol'. injection Hcol' as <-.
      apply flip_latitude_Return in Hflip
        as (m0 & m1 & lat & lon & Hsh & _ & Hlen & Hsame & ->).
      rewrite Hshape in Hsh. injection Hsh as <- <-.
      destruct (Hsame Hn0 Hn1) as [<- <-].
      rewrite length_flipped by done. lia.
    - rewrite (store_columns_frame _ _ _ _ _ Hstore Hout) in Hcol'.
      by apply header_entries_not_array in Hcol'. }
  destruct (height h) as [x|]; [|by subst d; apply Hdata].
  destruct Hheight as (hcol & Hhcol & ->).
  destruct (decide (key = "h_over_ellipsoid")) as [->|Hne].
  - rewrite lookup_insert_eq in Hcol. injection Hcol as ->.
    rewrite Hsize in Hhcol. unfold height_column in Hhcol.
    destruct (Z.ltb_spec (n0 * n1) 0); [discriminate|].
    destruct (max_elements <? n0 * n1); [discriminate|].
    injection Hhcol as <-.
    rewrite length_fmap, length_replicate. lia.
  - rewrite lookup_insert_ne in Hcol by done. by apply Hdata.
Qed.

Lemma returned_columns_have_grid_size_witness :
  exists d : gmap string (value Z),
    load_icgem_gdf (Bound None) (text_of with_height) = Return d /\
    forall key col, d !! key = Some (VArray col) -> Z.of_nat (length col) = 2 * 2.
Proof.
  assert (Hret : returns (load_icgem_gdf (N := IntNum) (Bound None)
                             (text_of with_height)) = true)
    by (vm_compute; reflexivity).
  destruct (returns_Return _ Hret) as [d E].
  exists d. split; [exact E|].
  destruct (returned_columns_have_grid_size _ _ _ E)
    as (h & rest & n0 & n1 & Hh & Hshape & _ & Hlen).
  vm_compute in Hh. injection Hh as <- <-.
  vm_compute in Hshape. injection Hshape as <- <-.
  apply Hlen; lia.
Defined.

(** X11. The expression of line 73 loses and repeats nothing and undoes
    itself: the stored column is a permutation of the raw row, and
    reshaping and flipping the stored column again gives the raw row
    back. *)
Theorem flip_latitude_involutive {num : Type}
    (sh : shape_t) (v col : list num) :
  flip_latitude sh v = Return col ->
  col ≡ₚ v /\ flip_latitude sh col = Return v.
Proof.
  intros H.
  apply flip_latitude_Return in H
    as (n0 & n1 & lat & lon & -> & Hdims & Hlen & _ & ->).
  pose proof (rows_of_row_length lat lon v Hlen) as Hrows.
  split.
  - rewrite concat_reverse_Permutation. by rewrite concat_rows_of.
  - unfold flip_latitude, reshape.
    rewrite length_flipped, <- Hlen, Hdims by done. simpl.
    rewrite !Nat2Z.id.
    rewrite rows_of_concat, reverse_involutive, concat_rows_of; try done.
    + by apply Forall_reverse.
    + by rewrite length_reverse, rows_of_length.
Qed.

Lemma flip_latitude_involutive_witness :
  [30; 40; 10; 20] ≡ₚ [10; 20; 30; 40] /\
  flip_latitude (num := Z) (Some 2, Some 2) [30; 40; 10; 20]
    = Return [10; 20; 30; 40].
Proof.
  apply (flip_latitude_involutive (num := Z) (Some 2, Some 2)
           [10; 20; 30; 40] [30; 40; 10; 20]).
  reflexivity.
Defined.

(** X12. The keys of a returned record are [shape], [area] and [metadata],
    the attribute names paired with a data row, and [h_over_ellipsoid] when
    the header gives a height; there is no other key. *)
Theorem returned_record_keys {num : Type} {N : Numeric num}
    (usecols : binding) (text : string) (d : gmap string (value num)) :
  load_icgem_gdf usecols text = Return d ->
  exists (h : header num) rest rawdata attrs,
    read_header init (readlines text) = Return (h, rest) /\
    loadtxt rest = Return rawdata /\
    attributes h = Some attrs /\
    dom d = {["shape"; "area"; "metadata"]}
            ∪ list_to_set (stored_names attrs rawdata)
            ∪ (match height h with
               | Some _ => {["h_over_ellipsoid"]}
               | None => ∅
               end).
Proof.
  intros E.
  apply load_Return in E
    as (h & rest & rawdata & attrs & attrs' & data & n0 & n1
        & Hh & Hr & Hattrs & _ & _ & Hstore & Hheight & _).
  exists h, rest, rawdata, attrs. repeat (split; [done|]).
  apply store_columns_dom in Hstore.
  rewrite header_entries_dom, stored_names_zip in Hstore.
  destruct (height h) as [x|].
  - destruct Hheight as (col & _ & ->). rewrite dom_insert_L, Hstore. set_solver.
  - subst d. rewrite Hstore. set_solver.
Qed.

Lemma returned_record_keys_witness :
  exists d : gmap string (value Z),
    load_icgem_gdf (Bound None) (text_of with_height) = Return d /\
    dom d = {["shape"; "area"; "metadata"]}
            ∪ list_to_set ["latitude"; "longitude"; "gravity"]
            ∪ {["h_over_ellipsoid"]}.
Proof.
  assert (Hret : returns (load_icgem_gdf (N := IntNum) (Bound None)
                             (text_of with_height)) = true)
    by (vm_compute; reflexivity).
  destruct (returns_Return _ Hret) as [d E].
  exists d. split; [exact E|].
  destruct (returned_record_keys _ _ _ E)
    as (h & rest & rawdata & attrs & Hh & Hr & Hattrs & Hdom).
  vm_compute in Hh. injection Hh as <- <-.
  vm_compute in Hr. injection Hr as <-.
  vm_compute in Hattrs. injection Hattrs as <-.
  exact Hdom.
Defined.

(** X17. A record is returned only after the check of lines 90 to 95: when
    the attribute names kept by line 85 hold both [latitude] and
    [longitude], the minimum and maximum of the two stored columns, in the
    order south, north, west, east, are close to the entry [area] of the
    record. *)
Theorem returned_area_is_close_to_columns {num : Type} {N : Numeric num}
    (usecols : binding) (text : string) (d : gmap string (value num)) :
  load_icgem_gdf usecols text = Return d ->
  exists (h : header num) rest attrs attrs',
    read_header init (readlines text) = Return (h, rest) /\
    attributes h = Some attrs /\
    apply_usecols (num := num) usecols attrs = Return attrs' /\
    (mem "latitude" attrs' = true -> mem "longitude" attrs' = true ->
     exists lat lon c0 c1 c2 c3,
       d !! "latitude" = Some (VArray lat) /\
       d !! "longitude" = Some (VArray lon) /\
       array_min lat = Return c0 /\ array_max lat = Return c1 /\
       array_min lon = Return c2 /\ array_max lon = Return c3 /\
       allclose (c0, c1, c2, c3) (d !! "area") = Return true).
Proof. apply returned_record_area_is_close. Qed.

Lemma returned_area_is_close_to_columns_witness :
  exists d : gmap string (value Z),
    load_icgem_gdf (Bound None) (text_of (minimal_header ++ minimal_points)) = Return d /\
    exists lat lon c0 c1 c2 c3,
      d !! "latitude" = Some (VArray lat) /\
      d !! "longitude" = Some (VArray lon) /\
      array_min lat = Return c0 /\ array_max lat = Return c1 /\
      array_min lon = Return c2 /\ array_max lon = Return c3 /\
      allclose (c0, c1, c2, c3) (d !! "area") = Return true.
Proof.
  assert (Hret : returns (load_icgem_gdf (N := IntNum) (Bound None)
                             (text_of (minimal_header ++ minimal_points))) = true)
    by (vm_compute; reflexivity).
  destruct (returns_Return _ Hret) as [d E].
  exists d. split; [exact E|].
  destruct (returned_area_is_close_to_columns _ _ _ E)
    as (h & rest & attrs & attrs' & Hh & Hattrs & Hu & Hclose).
  vm_compute in Hh. injection Hh as <- <-.
  vm_compute in Hattrs. injection Hattrs as <-.
  injection Hu as <-.
  exact (Hclose eq_refl eq_refl).
Defined.

(** ** The header text and the file *)

Lemma append_cons (x : ascii) (a s : string) :
  String.append (String x a) s = String x (String.append a s).
Proof. reflexivity. Qed.

Lemma append_assoc (a b c : string) :
  String.append (String.append a b) c = String.append a (String.append b c).
Proof. induction a as [|x a IH]; [done|]. by rewrite !append_cons, IH. Qed.

Lemma append_empty_r (a : string) : String.append a EmptyString = a.
Proof. induction a as [|x a IH]; [done|]. by rewrite append_cons, IH. Qed.

Lemma string_of_list_ascii_snoc (l : list ascii) (c : ascii) (s : string) :
  String.append (string_of_list_ascii (l ++ [c])) s
    = String.append (string_of_list_ascii l) (String c s).
Proof.
  induction l as [|x l IH]; [done|].
  change (string_of_list_ascii ((x :: l) ++ [c]))
    with (String x (string_of_list_ascii (l ++ [c]))).
  change (string_of_list_ascii (x :: l)) with (String x (string_of_list_ascii l)).
  by rewrite !append_cons, IH.
Qed.

Lemma join_readlines_aux (s : string) (cur : list ascii) :
  join (readlines_aux s cur) = String.append (string_of_list_ascii (rev cur)) s.
Proof.
  revert cur. induction s as [|c r IH]; intros cur.
  - destruct cur as [|x cur]; [done|].
    change (join (readlines_aux EmptyString (x :: cur)))
      with (String.append (string_of_list_ascii (rev (x :: cur))) EmptyString).
    done.
  - change (readlines_aux (String c r) cur)
      with (if Ascii.eqb c newline
            then string_of_list_ascii (rev (c :: cur)) :: readlines_aux r []
            else readlines_aux r (c :: cur)).
    destruct (Ascii.eqb c newline).
    + change (join (string_of_list_ascii (rev (c :: cur)) :: readlines_aux r []))
        with (String.append (string_of_list_ascii (rev (c :: cur)))
                (join (readlines_aux r []))).
      rewrite IH. change (rev (c :: cur)) with (rev cur ++ [c]).
      by rewrite string_of_list_ascii_snoc.
    + rewrite IH. change (rev (c :: cur)) with (rev cur ++ [c]).
      by rewrite string_of_list_ascii_snoc.
Qed.

(** The lines of a text, joined, are the text. *)
Lemma join_readlines (text : string) : join (readlines text) = text.
Proof. unfold readlines. by rewrite join_readlines_aux. Qed.

Lemma join_app (a b : list string) :
  join (a ++ b) = String.append (join a) (join b).
Proof.
  induction a as [|x a IH]; [done|].
  change (join ((x :: a) ++ b)) with (String.append x (join (a ++ b))).
  change (join (x :: a)) with (String.append x (join a)).
  by rewrite IH, append_assoc.
Qed.

(** X13. The header text that the loop gathers is a prefix of the file,
    character for character: the file is that text followed either by
    nothing (no [end_of_head] line) or by the [end_of_head] line and the
    lines left for the body. *)
Theorem header_text_is_prefix_of_file {num : Type} {N : Numeric num}
    (text : string) (h : header num) (rest : list string) :
  read_header init (readlines text) = Return (h, rest) ->
  exists tail : string,
    text = String.append (join (metadata h)) tail /\
    ((tail = EmptyString /\ rest = []) \/
     exists t, is_end_of_head t = true /\ tail = String.append t (join rest)).
Proof.
  intros Hh. apply read_header_lines in Hh as [Hm ->]. simpl in Hm. rewrite Hm.
  destruct (header_body_lines (readlines text)) as [[Heq Hbody]|(t & Ht & Heq)].
  - exists EmptyString. split; [|by left].
    by rewrite append_empty_r, <- Heq, join_readlines.
  - exists (String.append t (join (body_lines (readlines text)))).
    split; [|right; by exists t].
    rewrite <- (join_readlines text) at 1. rewrite Heq at 1.
    by rewrite join_app.
Qed.

Lemma header_text_is_prefix_of_file_witness :
  exists tail : string,
    text_of ["latitude_parallels 2"; "end_of_head"; "1 2"]
      = String.append (join (metadata two_line_parsed)) tail /\
    ((tail = EmptyString /\ [line "1 2"] = []) \/
     exists t, is_end_of_head t = true /\ tail = String.append t (join [line "1 2"])).
Proof.
  apply (header_text_is_prefix_of_file (N := IntNum)).
  vm_compute. reflexivity.
Defined.

(** * The display helpers *)

(** ** The slider options of [ProfileSelector.interact] *)

Section Stride.

Context {A : Type}.
Implicit Types (l : list A).

Local Open Scope nat_scope.

Lemma omap_seq (f : nat -> option A) (s m : nat) :
  (forall j, s <= j < s + m -> is_Some (f j)) ->
  length (omap f (seq s m)) = m /\
  forall i, i < m -> omap f (seq s m) !! i = f (s + i).
Proof.
  revert s. induction m as [|m IH]; intros s Hf.
  - split; [done | lia].
  - destruct (Hf s ltac:(lia)) as [x Hx].
    destruct (IH (S s)) as [Hlen Hlook]; [intros j Hj; apply Hf; lia|].
    assert (Heq : omap f (seq s (S m)) = x :: omap f (seq (S s) m)).
    { change (seq s (S m)) with (s :: seq (S s) m).
      change (omap f (s :: seq (S s) m))
        with (match f s with
              | Some y => y :: omap f (seq (S s) m)
              | None => omap f (seq (S s) m)
              end).
      by rewrite Hx. }
    rewrite Heq. split; [simpl; by rewrite Hlen|].
    intros [|i] Hi.
    + by rewrite Nat.add_0_r.
    + change ((x :: omap f (seq (S s) m)) !! S i) with (omap f (seq (S s) m) !! i).
      rewrite Hlook by lia. f_equal. lia.
Qed.

Lemma stride_count_bound (n k j : nat) :
  0 < k -> j < (n + k - 1) / k -> j * k < n.
Proof.
  intros Hk Hj.
  pose proof (Nat.Div0.mul_div_le (n + k - 1) k) as Hle.
  nia.
Qed.

Lemma stride_spec (k : nat) l :
  0 < k ->
  length (stride k l) = (length l + k - 1) / k /\
  forall j, j < (length l + k - 1) / k -> stride k l !! j = l !! (j * k).
Proof.
  intros Hk. unfold stride.
  destruct (omap_seq (fun j => l !! (j * k)) 0 ((length l + k - 1) / k))
    as [Hlen Hlook].
  - intros j Hj. apply lookup_lt_is_Some. apply stride_count_bound; [done | lia].
  - split; [done|]. intros j Hj. by rewrite Hlook.
Qed.

Lemma stride_nonempty (k : nat) l :
  0 < k -> l <> [] -> 0 < length (stride k l).
Proof.
  intros Hk Hl. rewrite (proj1 (stride_spec k l Hk)).
  apply Nat.div_str_pos. destruct l; [done|]. simpl. lia.
Qed.

Lemma omap_lookup_nil (k m s : nat) :
  omap (fun j => (@nil A) !! (j * k)) (seq s m) = [].
Proof. revert s. induction m as [|m IH]; intros s; [reflexivity|]. apply (IH (S s)). Qed.

Lemma stride_empty (k : nat) : stride k (@nil A) = [].
Proof. apply omap_lookup_nil. Qed.

Lemma stride_subseteq (k : nat) l x : 0 < k -> x ∈ stride k l -> x ∈ l.
Proof.
  intros Hk Hx. apply list_elem_of_lookup in Hx as [j Hj].
  pose proof (lookup_lt_Some _ _ _ Hj) as Hlt.
  destruct (stride_spec k l Hk) as [Hlen Hlook].
  rewrite Hlook in Hj by lia. by eapply list_elem_of_lookup_2.
Qed.

End Stride.

(** X14. The slider of the profile selector: a zero interval is a
    ValueError and a coordinate without values an IndexError; otherwise,
    for [n] values and an interval [k], there are [ceil (n / |k|)] options,
    option [j] is the value at index [j * |k|] (counted from the first
    value for a positive interval, from the last one for a negative
    interval), and the value the slider starts at is the option at index
    [len(options) // 2]; all options are values of the coordinate. *)
Theorem slider_options_spec {num : Type} (values : list num) (k : Z) :
  (k = 0 -> slider_options values k = Raise ValueError) /\
  (k <> 0 -> values = [] -> slider_options values k = Raise IndexError) /\
  (k <> 0 -> values <> [] ->
   exists options mid,
     slider_options values k = Return (options, mid) /\
     length options
       = ((length values + Z.to_nat (Z.abs k) - 1) / Z.to_nat (Z.abs k))%nat /\
     (forall j : nat, (j < length options)%nat ->
        options !! j =
          (if 0 <? k then values else reverse values) !! (j * Z.to_nat (Z.abs k))%nat) /\
     options !! (length options / 2)%nat = Some mid /\
     mid ∈ options /\
     (forall x, x ∈ options -> x ∈ values)).
Proof.
  unfold slider_options, slice_step.
  split; [by intros ->|].
  split.
  - intros Hk ->. destruct (Z.eqb_spec k 0); [done|].
    destruct (0 <? k); simpl; by rewrite ?reverse_nil, stride_empty.
  - intros Hk Hvalues. destruct (Z.eqb_spec k 0); [done|].
    set (l := if 0 <? k then values else reverse values).
    set (step := Z.to_nat (Z.abs k)).
    assert (Hstep : (0 < step)%nat) by (unfold step; lia).
    assert (Hl : l <> []).
    { unfold l. destruct (0 <? k); [done|].
      intros Hrev. apply (f_equal reverse) in Hrev.
      by rewrite reverse_involutive in Hrev. }
    assert (Hopts : (if 0 <? k then mret (stride (Z.to_nat k) values)
                     else mret (stride (Z.to_nat (- k)) (reverse values)))
                    = Return (E := exn num) (stride step l)).
    { unfold l, step. destruct (Z.ltb_spec 0 k); do 2 f_equal; lia. }
    rewrite Hopts.
    rewrite (bind_of_Return (Return (stride step l)) _ (stride step l) eq_refl).
    pose proof (stride_nonempty step l Hstep Hl) as Hlen.
    destruct (lookup_lt_is_Some_2 (stride step l) (length (stride step l) / 2))
      as [mid Hmid]; [apply Nat.div_lt; lia|].
    destruct (stride_spec step l Hstep) as [Hcount Hlook].
    exists (stride step l), mid. rewrite Hmid.
    split; [done|]. split.
    { rewrite Hcount. unfold l. destruct (0 <? k); [done|].
      by rewrite length_reverse. }
    split; [intros j Hj; apply Hlook; by rewrite <- Hcount|].
    split; [done|]. split; [by eapply list_elem_of_lookup_2|].
    intros x Hx. apply stride_subseteq in Hx; [|done].
    unfold l in Hx. destruct (0 <? k); [done | by apply elem_of_reverse].
Qed.

Lemma slider_options_spec_witness :
  (exists options mid,
     slider_options (num := Z) [10; 11; 12; 13; 14; 15; 16] 3 = Return (options, mid) /\
     (options, mid) = ([10; 13; 16], 13) /\
     length options = ((7 + 3 - 1) / 3)%nat) /\
  slider_options (num := Z) [10; 11; 12; 13; 14; 15; 16] (-3) = Return ([16; 13; 10], 13) /\
  slider_options (num := Z) [] 10 = Raise IndexError.
Proof.
  destruct (slider_options_spec (num := Z) [10; 11; 12; 13; 14; 15; 16] 3)
    as (_ & _ & H3).
  destruct (slider_options_spec (num := Z) [] 10) as (_ & H0 & _).
  split; [|split; [reflexivity | apply H0; done]].
  destruct H3 as (options & mid & Heq & Hlen & _); [done..|].
  exists options, mid. split; [exact Heq|]. split; [|exact Hlen].
  vm_compute in Heq. by injection Heq as <- <-.
Defined.

(** ** [minmax] *)

Section MinMax.

Context {num : Type} {N : Numeric num}.
Variable ltb : num -> num -> bool.

Implicit Types (data : gmap string (list num)) (fields : list string).

Lemma field_values_Return reduce data fields xs :
  field_values reduce data fields = Return xs ->
  Forall2 (fun f x => exists a, data !! f = Some a /\ reduce a = Return x) fields xs.
Proof.
  revert xs. induction fields as [|f more IH]; intros xs; simpl.
  - intros [= <-]. constructor.
  - intros H. apply bind_Return in H as (a & Ha & H).
    apply from_option_Return in Ha.
    apply bind_Return in H as (x & Hx & H).
    apply bind_Return in H as (xs' & Hxs' & H). injection H as <-.
    constructor; [by exists a | by apply IH].
Qed.

Lemma field_values_min_total data fields :
  Forall (fun f => exists a, data !! f = Some a /\ a <> []) fields ->
  exists xs, field_values array_min data fields = Return xs /\
             length xs = length fields.
Proof.
  induction 1 as [|f more (a & Ha & Hne) _ (xs & Hxs & Hlen)]; simpl.
  - by exists [].
  - rewrite Ha. destruct a as [|y a]; [done|]. simpl. rewrite Hxs. simpl.
    eexists. split; [reflexivity|]. simpl. by rewrite Hlen.
Qed.

Lemma field_values_max_total data fields :
  Forall (fun f => exists a, data !! f = Some a /\ a <> []) fields ->
  exists xs, field_values array_max data fields = Return xs /\
             length xs = length fields.
Proof.
  induction 1 as [|f more (a & Ha & Hne) _ (xs & Hxs & Hlen)]; simpl.
  - by exists [].
  - rewrite Ha. destruct a as [|y a]; [done|]. simpl. rewrite Hxs. simpl.
    eexists. split; [reflexivity|]. simpl. by rewrite Hlen.
Qed.

Lemma array_min_nonempty (a : list num) x : array_min a = Return x -> a <> [].
Proof. by destruct a. Qed.

(** The first field that the data set lacks is the KeyError. *)
Lemma field_values_KeyError reduce data pre f post :
  Forall (fun g => exists a x, data !! g = Some a /\ reduce a = Return x) pre ->
  data !! f = None ->
  field_values reduce data (pre ++ f :: post) = Raise (KeyError f).
Proof.
  intros Hpre Hf. induction Hpre as [|g pre (a & x & Ha & Hx) _ IH]; simpl.
  - by rewrite Hf.
  - rewrite Ha. simpl. rewrite Hx. simpl. by rewrite IH.
Qed.

End MinMax.

(** X15. [minmax] returns exactly when at least one field is asked for and
    every field asked for is in the data set with at least one value; with
    no field it raises ValueError, and the first field that the data set
    lacks (the fields before it being there, with values) is raised as
    KeyError. *)
Theorem minmax_returns_iff {num : Type} {N : Numeric num}
    (ltb : num -> num -> bool) (data : gmap string (list num)) (fields : list string) :
  (returns (minmax ltb data fields) = true <->
     fields <> [] /\
     Forall (fun f => exists a, data !! f = Some a /\ a <> []) fields) /\
  minmax ltb data [] = Raise ValueError /\
  (forall pre f post,
     fields = pre ++ f :: post ->
     Forall (fun g => exists a, data !! g = Some a /\ a <> []) pre ->
     data !! f = None ->
     minmax ltb data fields = Raise (KeyError f)).
Proof.
  split; [|split; [reflexivity|]].
  - split.
    + intros H. apply returns_Return in H as [r H]. unfold minmax in H.
      apply bind_Return in H as (mins & Hmins & H).
      apply bind_Return in H as (vmin & Hvmin & _).
      apply field_values_Return in Hmins. split.
      * intros ->. apply Forall2_nil_inv_l in Hmins as ->. discriminate.
      * clear Hvmin. induction Hmins as [|f x more xs (a & Ha & Hx) _ IH];
          constructor; [|done].
        exists a. split; [done|]. by eapply array_min_nonempty.
    + intros [Hne Hall].
      destruct (field_values_min_total data fields Hall) as (mins & Hmins & Hlmin).
      destruct (field_values_max_total data fields Hall) as (maxs & Hmaxs & Hlmax).
      unfold minmax. rewrite Hmins. simpl.
      destruct mins as [|m mins]; [by destruct fields|]. simpl.
      rewrite Hmaxs. simpl.
      destruct maxs as [|M maxs]; [by destruct fields|]. done.
  - intros pre f post -> Hpre Hf. unfold minmax.
    rewrite (field_values_KeyError array_min data pre f post); [done| |done].
    eapply Forall_impl; [exact Hpre|]. intros g (a & Ha & Hne).
    destruct a as [|y a]; [done|]. by exists (y :: a), (foldl fmin y a).
Qed.

Lemma minmax_returns_iff_witness :
  returns (minmax (N := IntNum) Z.ltb
             (<["gravity" := [3; 1; 2]]> (<["topography" := [7; 5]]> ∅))
             ["gravity"; "topography"]) = true /\
  minmax (N := IntNum) Z.ltb
    (<["gravity" := [3; 1; 2]]> (<["topography" := [7; 5]]> ∅))
    ["gravity"; "geoid"; "topography"] = Raise (KeyError "geoid").
Proof.
  split.
  - apply (proj1 (minmax_returns_iff (N := IntNum) Z.ltb _ _)).
    split; [done|]. repeat constructor; eexists; (split; [reflexivity | done]).
  - apply (proj2 (proj2 (minmax_returns_iff (N := IntNum) Z.ltb _ _)) ["gravity"] "geoid"
             ["topography"]); [reflexivity | | reflexivity].
    repeat constructor. eexists; (split; [reflexivity | done]).
Defined.

Section Bounds.

Context {num : Type}.

(** A fold that keeps one of its two arguments, with nothing before what it
    keeps, ends on an element of the list with nothing before it. *)
Lemma foldl_keeps_bound (lt : num -> num -> bool) (f : num -> num -> num) :
  (forall a b c, lt a c = true -> lt a b = true \/ lt b c = true) ->
  (forall a b, (f a b = a \/ f a b = b) /\
               lt a (f a b) = false /\ lt b (f a b) = false) ->
  forall r x,
    foldl f x r ∈ x :: r /\
    forall y, y ∈ x :: r -> lt y (foldl f x r) = false.
Proof.
  intros Hcotrans Hf r. induction r as [|z r IH]; intros x; simpl.
  - split; [set_solver|]. intros y Hy. apply list_elem_of_singleton in Hy as ->.
    destruct (Hf x x) as ([->| ->] & Hx & _); exact Hx || done.
  - destruct (IH (f x z)) as [Hin Hlow].
    destruct (Hf x z) as (Hkeep & Hx & Hz).
    split.
    + apply elem_of_cons in Hin as [->|Hin]; [|set_solver].
      destruct Hkeep as [->| ->]; set_solver.
    + intros y Hy.
      assert (Hstart : lt (f x z) (foldl f (f x z) r) = false)
        by (apply Hlow; set_solver).
      assert (Hvia : forall w, lt w (f x z) = false ->
                lt w (foldl f (f x z) r) = false).
      { intros w Hw. destruct (lt w (foldl f (f x z) r)) eqn:E; [|done].
        destruct (Hcotrans _ (f x z) _ E); congruence. }
      apply elem_of_cons in Hy as [->|Hy]; [by apply Hvia|].
      apply elem_of_cons in Hy as [->|Hy]; [by apply Hvia|].
      apply Hlow. set_solver.
Qed.

End Bounds.

Section MinMaxBounds.

Context {num : Type} {N : Numeric num}.
Variable ltb : num -> num -> bool.

(** Python's [<] is a strict weak order on the values, and numpy's minimum
    and maximum of two values agree with it. *)
Hypothesis ltb_irrefl : forall a, ltb a a = false.
Hypothesis ltb_trans : forall a b c, ltb a b = true -> ltb b c = true -> ltb a c = true.
Hypothesis ltb_cotrans : forall a b c, ltb a c = true -> ltb a b = true \/ ltb b c = true.
Hypothesis fmin_spec : forall a b,
  (fmin a b = a \/ fmin a b = b) /\ ltb a (fmin a b) = false /\ ltb b (fmin a b) = false.
Hypothesis fmax_spec : forall a b,
  (fmax a b = a \/ fmax a b = b) /\ ltb (fmax a b) a = false /\ ltb (fmax a b) b = false.

Lemma ltb_asym a b : ltb a b = true -> ltb b a = false.
Proof.
  intros Hab. destruct (ltb b a) eqn:Hba; [|done].
  pose proof (ltb_trans _ _ _ Hab Hba). by rewrite ltb_irrefl in H.
Qed.

Lemma gtb_cotrans a b c : ltb c a = true -> ltb b a = true \/ ltb c b = true.
Proof. intros H. destruct (ltb_cotrans _ b _ H); auto. Qed.

Lemma array_min_bound (a : list num) m :
  array_min a = Return m -> m ∈ a /\ forall x, x ∈ a -> ltb x m = false.
Proof.
  destruct a as [|y a]; [discriminate|]. intros [= <-].
  by apply (foldl_keeps_bound ltb fmin).
Qed.

Lemma array_max_bound (a : list num) m :
  array_max a = Return m -> m ∈ a /\ forall x, x ∈ a -> ltb m x = false.
Proof.
  destruct a as [|y a]; [discriminate|]. intros [= <-].
  apply (foldl_keeps_bound (fun u v => ltb v u) fmax); [|done].
  intros u v w. apply gtb_cotrans.
Qed.

Lemma py_min_bound (items : list num) m :
  py_min ltb items = Return m -> m ∈ items /\ forall x, x ∈ items -> ltb x m = false.
Proof.
  destruct items as [|y items]; [discriminate|]. intros [= <-].
  apply (foldl_keeps_bound ltb); [done|].
  intros best item. destruct (ltb item best) eqn:E.
  - split; [by right|]. split; [by apply ltb_asym | apply ltb_irrefl].
  - split; [by left|]. split; [apply ltb_irrefl | done].
Qed.

Lemma py_max_bound (items : list num) m :
  py_max ltb items = Return m -> m ∈ items /\ forall x, x ∈ items -> ltb m x = false.
Proof.
  destruct items as [|y items]; [discriminate|]. intros [= <-].
  apply (foldl_keeps_bound (fun u v => ltb v u)).
  - intros u v w. apply gtb_cotrans.
  - intros best item. destruct (ltb best item) eqn:E.
    + split; [by right|]. split; [by apply ltb_asym | apply ltb_irrefl].
    + split; [by left|]. split; [apply ltb_irrefl | done].
Qed.

(** X16. What [minmax] returns: under [vmin] a value of one of the fields
    that no value of any of the fields is less than, and under [vmax] a
    value of one of the fields that is less than no value of any of the
    fields. *)
Theorem minmax_bounds (data : gmap string (list num)) (fields : list string)
    (r : gmap string num) :
  minmax ltb data fields = Return r ->
  exists vmin vmax,
    r = <["vmax" := vmax]> (<["vmin" := vmin]> ∅) /\
    (forall f a x, f ∈ fields -> data !! f = Some a -> x ∈ a ->
       ltb x vmin = false /\ ltb vmax x = false) /\
    (exists f a, f ∈ fields /\ data !! f = Some a /\ vmin ∈ a) /\
    (exists f a, f ∈ fields /\ data !! f = Some a /\ vmax ∈ a).
Proof.
  unfold minmax. intros H.
  apply bind_Return in H as (mins & Hmins & H).
  apply bind_Return in H as (vmin & Hvmin & H).
  apply bind_Return in H as (maxs & Hmaxs & H).
  apply bind_Return in H as (vmax & Hvmax & H). injection H as <-.
  apply field_values_Return in Hmins, Hmaxs.
  apply py_min_bound in Hvmin as [Hvmin_in Hvmin].
  apply py_max_bound in Hvmax as [Hvmax_in Hvmax].
  exists vmin, vmax. split; [done|]. split; [|split].
  - intros f a x Hf Ha Hx.
    apply list_elem_of_lookup in Hf as [i Hi].
    destruct (Forall2_lookup_l _ _ _ _ _ Hmins Hi) as (m & Hm & a1 & Ha1 & Hmin).
    destruct (Forall2_lookup_l _ _ _ _ _ Hmaxs Hi) as (M & HM & a2 & Ha2 & Hmax).
    assert (a1 = a) as -> by congruence. assert (a2 = a) as -> by congruence.
    apply array_min_bound in Hmin as [_ Hmin].
    apply array_max_bound in Hmax as [_ Hmax].
    apply list_elem_of_lookup_2 in Hm, HM. split.
    + destruct (ltb x vmin) eqn:E; [|done].
      destruct (ltb_cotrans _ m _ E) as [E'|E'];
        [rewrite (Hmin x Hx) in E' | rewrite (Hvmin m Hm) in E']; done.
    + destruct (ltb vmax x) eqn:E; [|done].
      destruct (ltb_cotrans _ M _ E) as [E'|E'];
        [rewrite (Hvmax M HM) in E' | rewrite (Hmax x Hx) in E']; done.
  - apply list_elem_of_lookup in Hvmin_in as [i Hi].
    destruct (Forall2_lookup_r _ _ _ _ _ Hmins Hi) as (f & Hf & a & Ha & Hmin).
    exists f, a. split; [by eapply list_elem_of_lookup_2|]. split; [done|].
    by apply array_min_bound in Hmin as [? _].
  - apply list_elem_of_lookup in Hvmax_in as [i Hi].
    destruct (Forall2_lookup_r _ _ _ _ _ Hmaxs Hi) as (f & Hf & a & Ha & Hmax).
    exists f, a. split; [by eapply list_elem_of_lookup_2|]. split; [done|].
    by apply array_max_bound in Hmax as [? _].
Qed.

End MinMaxBounds.

Lemma minmax_bounds_witness :
  exists vmin vmax : Z,
    (<["vmax" := 7]> (<["vmin" := 1]> ∅) : gmap string Z)
      = <["vmax" := vmax]> (<["vmin" := vmin]> ∅) /\
    (forall f a x, f ∈ ["gravity"; "topography"] ->
       (<["gravity" := [3; 1; 2]]> (<["topography" := [7; 5]]> ∅) : gmap string (list Z))
         !! f = Some a ->
       x ∈ a -> Z.ltb x vmin = false /\ Z.ltb vmax x = false) /\
    (exists f a, f ∈ ["gravity"; "topography"] /\
       (<["gravity" := [3; 1; 2]]> (<["topography" := [7; 5]]> ∅) : gmap string (list Z))
         !! f = Some a /\ vmin ∈ a) /\
    (exists f a, f ∈ ["gravity"; "topography"] /\
       (<["gravity" := [3; 1; 2]]> (<["topography" := [7; 5]]> ∅) : gmap string (list Z))
         !! f = Some a /\ vmax ∈ a).
Proof.
  apply (minmax_bounds (N := IntNum) Z.ltb).
  - intros a. apply Z.ltb_irrefl.
  - intros a b c Hab Hbc. apply Z.ltb_lt in Hab, Hbc. apply Z.ltb_lt. lia.
  - intros a b c Hac. apply Z.ltb_lt in Hac.
    destruct (Z.ltb_spec a b); [by left|]. right. apply Z.ltb_lt. lia.
  - intros a b. simpl. rewrite !Z.ltb_ge. lia.
  - intros a b. simpl. rewrite !Z.ltb_ge. lia.
  - reflexivity.
Defined.
